(** * AirtableManager: a record facade over a remote table store

    A shallow embedding of the [AirtableManager] class and of the types
    of [types/airtable.types], followed by the properties of the class
    that its specification states.

    Conventions of the embedding.
    - A JavaScript exception is a [Throw] completion; [try_catch] is the
      [try { ... } catch (error) { ... }] statement.
    - The remote store is an oracle ([Remote]): what it answers may
      depend on every call issued before.  The calls issued so far are
      kept, oldest first, in the [World].
    - An [await] is the sequencing of the [Async] monad: the awaited call
      is issued, its answer is received, and the method goes on.  A
      promise that never settles is [Pending]: the method that awaits it
      never returns.
    - A completion stands for the promise settled with it
      ([Airtable.Settled] is a coercion). *)

From Stdlib Require Import ZArith String Ascii List Bool Arith Lia DecimalString.
From Equations Require Import Equations.
Import ListNotations.

Open Scope string_scope.
Open Scope list_scope.

Set Implicit Arguments.

(** The components of a pair are read against the type expected of the
    pair. *)
Arguments pair {A B} & a b.

(** ** JavaScript values, as far as the class observes them *)

Module Js.

(** A number is observed in three ways only: by its truthiness
    ([options.maxRecords || 100]), by its text in a template literal,
    and by strict comparison with an array length.  [Int z] is an
    integral value printed in plain decimal digits (both zeros are
    [Int 0]); [Real text] is any other value that is not NaN (a
    fraction, an infinity, a magnitude printed with an exponent),
    given by the text its conversion to a string yields. *)
Inductive number : Type :=
| Int (z : Z)
| NaN
| Real (text : string).

Definition number_to_string (n : number) : string :=
  match n with
  | Int z => NilZero.string_of_int (Z.to_int z)
  | NaN => "NaN"
  | Real text => text
  end.

(** [ToBoolean] on a number: [0], [-0] and [NaN] are falsy. *)
Definition number_truthy (n : number) : bool :=
  match n with
  | Int z => negb (Z.eqb z 0)
  | NaN => false
  | Real _ => true
  end.

(** [array.length === n]. *)
Definition length_is (len : nat) (n : number) : bool :=
  match n with
  | Int z => Z.eqb (Z.of_nat len) z
  | NaN | Real _ => false
  end.

(** [ToBoolean] on a string: only the empty string is falsy. *)
Definition string_truthy (s : string) : bool :=
  negb (String.eqb s EmptyString).

(** The value caught by a [catch (error: any)] clause, read through
    [error.statusCode] and [error.message]. *)
Record Error : Type := mkError {
  statusCode : option number;
  message : option string
}.

Inductive Completion (A : Type) : Type :=
| Normal (a : A)
| Throw (e : Error).
Arguments Throw {A} e.

Definition bind {A B} (c : Completion A) (k : A -> Completion B) : Completion B :=
  match c with
  | Normal a => k a
  | Throw e => Throw e
  end.

(** A value of type [any].  [VOther] is a value whose [typeof] is none
    of "undefined", "string", "number", "boolean" and which is not
    [null] (an array, an object, a bigint, a symbol), given by the
    outcome of its conversion to a string, which raises a [TypeError]
    for a symbol. *)
Inductive Value : Type :=
| VUndefined
| VNull
| VBoolean (b : bool)
| VNumber (n : number)
| VString (s : string)
| VOther (text : Completion string).

(** The conversion a template literal applies to an interpolated
    value. *)
Definition to_string (v : Value) : Completion string :=
  match v with
  | VUndefined => Normal "undefined"
  | VNull => Normal "null"
  | VBoolean true => Normal "true"
  | VBoolean false => Normal "false"
  | VNumber n => Normal (number_to_string n)
  | VString s => Normal s
  | VOther text => text
  end.

(** [error.message || fallback]. *)
Definition message_or (e : Error) (fallback : string) : string :=
  match message e with
  | Some m => if string_truthy m then m else fallback
  | None => fallback
  end.

(** [error.statusCode === 404]. *)
Definition is_404 (e : Error) : bool :=
  match statusCode e with
  | Some (Int z) => Z.eqb z 404
  | _ => false
  end.

(** [Array.prototype.forEach] with a callback that updates the
    variables it closes over ([s]) and may raise. *)
Fixpoint forEach {A S} (f : S -> A -> Completion S) (l : list A) (s : S)
  : Completion S :=
  match l with
  | [] => Normal s
  | a :: l' => bind (f s a) (forEach f l')
  end.

(** [array.slice(i, j)] for [0 <= i <= j]. *)
Definition slice {A} (l : list A) (i j : nat) : list A :=
  firstn (j - i) (skipn i l).

(** The double quote character of a string literal. *)
Definition dquote : string := String (ascii_of_nat 34) EmptyString.

(** A template literal: the concatenation of its pieces. *)
Definition template (pieces : list string) : string :=
  String.concat EmptyString pieces.

(** The [TypeError] raised by reading a property of [undefined]. *)
Definition TypeError_undefined (property : string) : Error :=
  {| statusCode := None;
     message := Some (template ["Cannot read properties of undefined (reading '";
                                property; "')"]) |}.

End Js.
Import Js.

(** ** types/airtable.types *)

Module Types.

Definition Fields : Type := list (string * Value).

Record AirtableConfig : Type := {
  apiKey : string;
  baseId : string;
  tableName : string
}.

Record AirtableRecord : Type := {
  id : string;
  fields : Fields;
  createdTime : option string
}.

Record CreateRecordInput : Type := { create_fields : Fields }.

Record UpdateRecordInput : Type := {
  update_id : string;
  update_fields : Fields
}.

Record BulkDeleteInput : Type := { ids : list string }.

Record BulkCreateInput : Type := { records : list CreateRecordInput }.

Record BulkUpdateInput : Type := { update_records : list UpdateRecordInput }.

Inductive Direction : Type := asc | desc.

Record SortSpec : Type := {
  sort_field : string;
  direction : Direction
}.

Record GetAllRecordsOptions : Type := {
  maxRecords : option number;
  view : option string;
  sort : option (list SortSpec);
  filterByFormula : option string
}.

Record SearchOptions : Type := {
  filters : list (string * Value);
  search_maxRecords : option number;
  search_view : option string
}.

(** [data] holds one record ([create], [getById], [update]) or a list
    of records. *)
Inductive Data : Type :=
| One (r : AirtableRecord)
| Many (rs : list AirtableRecord).

(** The response interfaces all have the shape
    [{ success: boolean; ...optional fields }]; one record with every
    optional field stands for them.  [None] is an absent (or
    [undefined]) property. *)
Record Response : Type := {
  success : bool;
  data : option Data;
  count : option nat;
  nextOffset : option string;
  message : option string;
  deletedCount : option nat;
  exists_ : option bool;
  error : option string
}.

End Types.
Import Types.

(** ** The [airtable] package, as the class uses it *)

Module Airtable.

(** [Airtable.base(baseId)] and [base(tableName)]: handles, built
    without any remote call. *)
Record Base : Type := { base_id : string }.

Record Table : Type := {
  table_base : Base;
  table_name : string
}.

Definition base (baseId : string) : Base := {| base_id := baseId |}.

Definition table_of (b : Base) (tableName : string) : Table :=
  {| table_base := b; table_name := tableName |}.

(** A record object of the package: [record.id], [record.fields] and
    the optional [record._rawJson], of which [createdTime] is read. *)
Record RawJson : Type := { raw_createdTime : option string }.

Record Record_ : Type := {
  record_id : string;
  record_fields : Fields;
  _rawJson : option RawJson
}.

(** The [selectOptions: any] object handed to [table.select]. *)
Record SelectOptions : Type := {
  select_maxRecords : option number;
  select_view : string;
  select_sort : option (list SortSpec);
  select_filterByFormula : option string;
  select_offset : option string;
  select_fields : option (list string)
}.

Definition with_sort (s : list SortSpec) (o : SelectOptions) : SelectOptions :=
  {| select_maxRecords := select_maxRecords o; select_view := select_view o;
     select_sort := Some s; select_filterByFormula := select_filterByFormula o;
     select_offset := select_offset o; select_fields := select_fields o |}.

Definition with_filterByFormula (f : string) (o : SelectOptions) : SelectOptions :=
  {| select_maxRecords := select_maxRecords o; select_view := select_view o;
     select_sort := select_sort o; select_filterByFormula := Some f;
     select_offset := select_offset o; select_fields := select_fields o |}.

Definition with_offset (f : string) (o : SelectOptions) : SelectOptions :=
  {| select_maxRecords := select_maxRecords o; select_view := select_view o;
     select_sort := select_sort o; select_filterByFormula := select_filterByFormula o;
     select_offset := Some f; select_fields := select_fields o |}.

(** A query object of the package: the table and the parameters it was
    built from. *)
Record Query : Type := {
  query_table : Table;
  query_params : SelectOptions
}.

(** The error [table.select] raises for parameters it refuses. *)
Definition invalid_select_parameters : Error :=
  {| statusCode := None;
     Js.message :=
       Some (template ["Airtable: invalid parameters for `select`:";
                       String (ascii_of_nat 10) EmptyString;
                       "  * the value for `offset` should be a number"]) |}.

(** One call to the remote store.  [SelectPage t o k] is the request
    for page number [k] of the query [t.select(o)]. *)
Inductive Call : Type :=
| CreateCall (t : Table) (batch : list CreateRecordInput)
| UpdateCall (t : Table) (batch : list UpdateRecordInput)
| DestroyCall (t : Table) (ids : list string)
| FindCall (t : Table) (id : string)
| SelectPage (t : Table) (o : SelectOptions) (k : nat).

(** The calls issued so far, oldest first. *)
Definition World : Type := list Call.

(** The pages a query delivers, one request each: the request fails,
    or it delivers a page that is the last one, or a page after which
    more can be requested. *)
Inductive Pages : Type :=
| PageError (e : Error)
| LastPage (page : list Record_)
| MorePages (page : list Record_) (rest : Pages).

(** What the remote store answers, given the calls issued before. *)
Record Remote : Type := {
  on_create : World -> Table -> list CreateRecordInput -> Completion (list Record_);
  on_update : World -> Table -> list UpdateRecordInput -> Completion (list Record_);
  on_destroy : World -> Table -> list string -> Completion (list Record_);
  on_find : World -> Table -> string -> Completion Record_;
  on_select : World -> Table -> SelectOptions -> Pages
}.

(** How a promise ends.  It settles, fulfilled with a value or rejected
    with an error; or it stays pending for ever, and [unhandled] is the
    error that escaped it, when one did (an unhandled rejection). *)
Inductive Settlement (A : Type) : Type :=
| Settled (c : Completion A)
| Pending (unhandled : option Error).
Arguments Pending {A} unhandled.

Coercion Settled : Completion >-> Settlement.

(** An asynchronous computation: it issues calls, and its promise ends
    in one of these ways. *)
Definition Async (A : Type) : Type := World -> Settlement A * World.

Definition ret {A} (a : A) : Async A := fun w => (Settled (Normal a), w).

Definition lift {A} (c : Completion A) : Async A := fun w => (Settled c, w).

(** [x = await m; k(x)]: nothing follows a promise that stays pending. *)
Definition await {A B} (m : Async A) (k : A -> Async B) : Async B :=
  fun w =>
    match m w with
    | (Settled (Normal a), w') => k a w'
    | (Settled (Throw e), w') => (Settled (Throw e), w')
    | (Pending unhandled, w') => (Pending unhandled, w')
    end.

(** [try { body } catch (error) { handler }] around awaited code: the
    handler runs when the body is rejected, not when it stays pending. *)
Definition try_catch {A} (body : Async A) (handler : Error -> Async A) : Async A :=
  fun w =>
    match body w with
    | (Settled (Normal a), w') => (Settled (Normal a), w')
    | (Settled (Throw e), w') => handler e w'
    | (Pending unhandled, w') => (Pending unhandled, w')
    end.

Section Calls.

Variable remote : Remote.

Definition create (t : Table) (batch : list CreateRecordInput)
  : Async (list Record_) :=
  fun w => (Settled (on_create remote w t batch), w ++ [CreateCall t batch]).

Definition update (t : Table) (batch : list UpdateRecordInput)
  : Async (list Record_) :=
  fun w => (Settled (on_update remote w t batch), w ++ [UpdateCall t batch]).

Definition destroy (t : Table) (ids : list string) : Async (list Record_) :=
  fun w => (Settled (on_destroy remote w t ids), w ++ [DestroyCall t ids]).

Definition find (t : Table) (id : string) : Async Record_ :=
  fun w => (Settled (on_find remote w t id), w ++ [FindCall t id]).

(** [table.select(o)].  The package checks the parameters before any
    request is made, and raises for those it refuses: an [offset] must
    be a number, and the one the class passes is a string. *)
Definition select (t : Table) (o : SelectOptions) : Completion Query :=
  match select_offset o with
  | Some _ => Throw invalid_select_parameters
  | None => Normal {| query_table := t; query_params := o |}
  end.

(** [query.eachPage(callback)], from the page [k] on.  The callback
    receives a page and the variables it closes over, and tells whether
    it called [fetchNextPage].  The promise is rejected when a request
    fails, and fulfilled when [fetchNextPage] is called on the last
    page; nothing else settles it.  When the callback returns without
    calling [fetchNextPage] the promise stays pending, and so it does
    when the callback raises: its error escapes the promise. *)
Fixpoint eachPage_from {St} (t : Table) (o : SelectOptions) (pages : Pages)
    (k : nat) (callback : list Record_ -> St -> Completion (St * bool)) (s : St)
  : Async St :=
  fun w =>
    let w1 := w ++ [SelectPage t o k] in
    match pages with
    | PageError e => (Settled (Throw e), w1)
    | LastPage page =>
        match callback page s with
        | Normal (s', true) => (Settled (Normal s'), w1)
        | Normal (s', false) => (Pending None, w1)
        | Throw e => (Pending (Some e), w1)
        end
    | MorePages page rest =>
        match callback page s with
        | Normal (s', true) => eachPage_from t o rest (S k) callback s' w1
        | Normal (s', false) => (Pending None, w1)
        | Throw e => (Pending (Some e), w1)
        end
    end.

Definition eachPage {St} (q : Query)
    (callback : list Record_ -> St -> Completion (St * bool)) (s : St) : Async St :=
  fun w =>
    eachPage_from (query_table q) (query_params q)
      (on_select remote w (query_table q) (query_params q)) 0 callback s w.

(** [table.select(o).eachPage(callback)]. *)
Definition select_eachPage {St} (t : Table) (o : SelectOptions)
    (callback : list Record_ -> St -> Completion (St * bool)) (s : St) : Async St :=
  await (lift (select t o)) (fun q => eachPage q callback s).

End Calls.

End Airtable.

Notation "x <- m ;; k" := (Airtable.await m (fun x => k))
  (at level 61, m at next level, right associativity).

(** ** The class *)

Module AirtableManager.

Import Airtable.

(** The private members [base], [table] and [config]. *)
Record Manager : Type := {
  base : Base;
  table : Table;
  config : AirtableConfig
}.

(** [new AirtableManager(apiKey, baseId, tableName)].  The constructor
    also hands the key to the package ([Airtable.configure]); no
    method reads it back from there. *)
Definition constructor (apiKey baseId tableName : string) : Manager :=
  let config := {| apiKey := apiKey; baseId := baseId; tableName := tableName |} in
  let base := Airtable.base (Types.baseId config) in
  {| base := base;
     table := table_of base (Types.tableName config);
     config := config |}.

(** [{ success: false, error }]. *)
Definition failure (error : string) : Response :=
  {| success := false; data := None; count := None; nextOffset := None;
     message := None; deletedCount := None; exists_ := None;
     error := Some error |}.

(** The object literal of [formatRecord]. *)
Definition format (record : Record_) : AirtableRecord :=
  {| id := record_id record;
     fields := record_fields record;
     createdTime := match _rawJson record with
                    | Some json => raw_createdTime json
                    | None => None
                    end |}.

(** [formatRecord(record: any)]: [None] is [undefined], as [records[0]]
    is for an empty array; reading [record.id] then raises. *)
Definition formatRecord (record : option Record_) : Completion AirtableRecord :=
  match record with
  | Some r => Normal (format r)
  | None => Throw (TypeError_undefined "id")
  end.

(** [records.push(this.formatRecord(record))]. *)
Definition push_formatted (records : list AirtableRecord) (record : Record_)
  : Completion (list AirtableRecord) :=
  Js.bind (formatRecord (Some record)) (fun r => Normal (records ++ [r])).

(** [records.map((record) => this.formatRecord(record))]. *)
Fixpoint map_formatRecord (records : list Record_) : Completion (list AirtableRecord) :=
  match records with
  | [] => Normal []
  | record :: rest =>
      Js.bind (formatRecord (Some record)) (fun r =>
      Js.bind (map_formatRecord rest) (fun rs => Normal (r :: rs)))
  end.

(** [value !== undefined && value !== null && value !== ""]. *)
Definition present (value : Value) : bool :=
  match value with
  | VUndefined => false
  | VNull => false
  | VString s => negb (String.eqb s EmptyString)
  | _ => true
  end.

(** The body of the [forEach] callback of [buildFilterFormula]; the
    branches are those of the [typeof] tests. *)
Definition push_condition (conditions : list string) (entry : string * Value)
  : Completion (list string) :=
  let (field, value) := entry in
  if present value then
    match value with
    | VString s =>
        Normal (conditions ++
          [template ["SEARCH("; dquote; s; dquote; ", {"; field; "}) > 0"]])
    | VNumber n =>
        Normal (conditions ++ [template ["{"; field; "} = "; number_to_string n]])
    | VBoolean b =>
        Normal (conditions ++
          [template ["{"; field; "} = "; if b then "TRUE()" else "FALSE()"]])
    | _ =>
        Js.bind (to_string value) (fun text =>
        Normal (conditions ++ [template ["{"; field; "} = "; dquote; text; dquote]]))
    end
  else Normal conditions.

(** [buildFilterFormula(filters)]; [filters] is the list
    [Object.entries(filters)]. *)
Definition buildFilterFormula (filters : list (string * Value)) : Completion string :=
  Js.bind (forEach push_condition filters []) (fun conditions =>
  if Nat.eqb (length conditions) 0 then Normal EmptyString
  else if Nat.eqb (length conditions) 1 then Normal (nth 0 conditions EmptyString)
  else Normal (template ["AND("; String.concat ", " conditions; ")"])).

(** [const batchSize = 10; // Airtable limit] *)
Definition batchSize : nat := 10.

(** [for (let i = 0; i < n; i += batchSize) body], from the index [i]
    on; [s] holds the variables the body updates, and an error raised
    by the body leaves the loop. *)
Equations? for_batches {St} (n : nat) (body : nat -> St -> Async St)
    (i : nat) (s : St) (w : World) : Settlement St * World by wf (n - i) lt :=
  for_batches n body i s w with lt_dec i n := {
    | right _ := (Settled (Normal s), w);
    | left _ with body i s w := {
        | (Settled (Normal s'), w') := for_batches n body (i + batchSize) s' w';
        | (Settled (Throw e), w') := (Settled (Throw e), w');
        | (Pending unhandled, w') := (Pending unhandled, w') } }.
Proof. unfold batchSize. lia. Qed.

Section Methods.

Variable remote : Remote.
Variable this : Manager.

Definition create (input : CreateRecordInput) : Async Response :=
  try_catch
    (records <- Airtable.create remote (table this) [input] ;;
     r <- lift (formatRecord (nth_error records 0)) ;;
     ret {| success := true; data := Some (One r); count := None;
            nextOffset := None; message := None; deletedCount := None;
            exists_ := None; error := None |})
    (fun error => ret (failure (message_or error "Failed to create record"))).

(** The [selectOptions] object of [getAll]. *)
Definition getAll_selectOptions (options : GetAllRecordsOptions) : SelectOptions :=
  let selectOptions :=
    {| select_maxRecords :=
         Some match maxRecords options with
              | Some n => if number_truthy n then n else Int 100
              | None => Int 100
              end;
       select_view :=
         match view options with
         | Some v => if string_truthy v then v else "Grid view"
         | None => "Grid view"
         end;
       select_sort := None;
       select_filterByFormula := None;
       select_offset := None;
       select_fields := None |} in
  let selectOptions :=
    match sort options with
    | Some s => with_sort s selectOptions
    | None => selectOptions
    end in
  match filterByFormula options with
  | Some f => if string_truthy f then with_filterByFormula f selectOptions
              else selectOptions
  | None => selectOptions
  end.

Definition getAll (options : GetAllRecordsOptions) : Async Response :=
  try_catch
    (records <- select_eachPage remote (table this) (getAll_selectOptions options)
                  (fun pageRecords records =>
                     Js.bind (forEach push_formatted pageRecords records)
                             (fun records => Normal (records, true)))
                  [] ;;
     ret {| success := true; data := Some (Many records);
            count := Some (length records); nextOffset := None;
            message := None; deletedCount := None; exists_ := None;
            error := None |})
    (fun error => ret (failure (message_or error "Failed to fetch records"))).

Definition getById (id : string) : Async Response :=
  try_catch
    (record <- find remote (table this) id ;;
     r <- lift (formatRecord (Some record)) ;;
     ret {| success := true; data := Some (One r); count := None;
            nextOffset := None; message := None; deletedCount := None;
            exists_ := None; error := None |})
    (fun error =>
       ret (failure (if is_404 error then "Record not found"
                     else message_or error "Failed to fetch record"))).

Definition search (options : SearchOptions) : Async Response :=
  try_catch
    (filterFormula <- lift (buildFilterFormula (filters options)) ;;
     getAll {| filterByFormula := Some filterFormula;
               maxRecords := search_maxRecords options;
               view := search_view options;
               sort := None |})
    (fun error => ret (failure (message_or error "Search failed"))).

Definition update (input : UpdateRecordInput) : Async Response :=
  try_catch
    (records <- Airtable.update remote (table this)
                  [{| update_id := update_id input;
                      update_fields := update_fields input |}] ;;
     r <- lift (formatRecord (nth_error records 0)) ;;
     ret {| success := true; data := Some (One r); count := None;
            nextOffset := None; message := None; deletedCount := None;
            exists_ := None; error := None |})
    (fun error =>
       ret (failure (if is_404 error then "Record not found"
                     else message_or error "Failed to update record"))).

Definition delete (id : string) : Async Response :=
  try_catch
    (_ <- destroy remote (table this) [id] ;;
     ret {| success := true; data := None; count := None; nextOffset := None;
            message := Some "Record deleted successfully";
            deletedCount := None; exists_ := None; error := None |})
    (fun error =>
       ret (failure (if is_404 error then "Record not found"
                     else message_or error "Failed to delete record"))).

Definition bulkCreate (input : BulkCreateInput) : Async Response :=
  try_catch
    (results <- for_batches (length (records input))
                  (fun i results =>
                     let batch := slice (records input) i (i + batchSize) in
                     records <- Airtable.create remote (table this) batch ;;
                     formatted <- lift (map_formatRecord records) ;;
                     ret (results ++ formatted))
                  0 [] ;;
     ret {| success := true; data := Some (Many results);
            count := Some (length results); nextOffset := None;
            message := None; deletedCount := None; exists_ := None;
            error := None |})
    (fun error => ret (failure (message_or error "Bulk create failed"))).

Definition bulkUpdate (input : BulkUpdateInput) : Async Response :=
  try_catch
    (results <- for_batches (length (update_records input))
                  (fun i results =>
                     let batch := slice (update_records input) i (i + batchSize) in
                     records <- Airtable.update remote (table this) batch ;;
                     formatted <- lift (map_formatRecord records) ;;
                     ret (results ++ formatted))
                  0 [] ;;
     ret {| success := true; data := Some (Many results);
            count := Some (length results); nextOffset := None;
            message := None; deletedCount := None; exists_ := None;
            error := None |})
    (fun error => ret (failure (message_or error "Bulk update failed"))).

Definition bulkDelete (input : BulkDeleteInput) : Async Response :=
  try_catch
    (deletedCount <- for_batches (length (ids input))
                       (fun i deletedCount =>
                          let batch := slice (ids input) i (i + batchSize) in
                          _ <- destroy remote (table this) batch ;;
                          ret (deletedCount + length batch))
                       0 0 ;;
     ret {| success := true; data := None; count := None; nextOffset := None;
            message := Some (template [number_to_string (Int (Z.of_nat deletedCount));
                                       " records deleted successfully"]);
            deletedCount := Some deletedCount; exists_ := None;
            error := None |})
    (fun error => ret (failure (message_or error "Bulk delete failed"))).

(** The [eachPage] callback of [getPaginated]: it closes over
    [records] and [nextOffset] and returns without calling
    [fetchNextPage].  [pageRecords[pageRecords.length - 1]] is
    [undefined] for an empty page, as [nth_error] is [None] there. *)
Definition getPaginated_callback (pageSize : number) (pageRecords : list Record_)
    (vars : list AirtableRecord * option string)
  : Completion ((list AirtableRecord * option string) * bool) :=
  let (records, nextOffset) := vars in
  Js.bind (forEach push_formatted pageRecords records) (fun records =>
  Js.bind (if length_is (length pageRecords) pageSize then
             match nth_error pageRecords (length pageRecords - 1) with
             | Some last => Normal (Some (record_id last))
             | None => Throw (TypeError_undefined "id")
             end
           else Normal nextOffset) (fun nextOffset =>
  Normal ((records, nextOffset), false))).

(** The [selectOptions] object of [getPaginated]. *)
Definition getPaginated_selectOptions (pageSize : number) (offset : option string)
  : SelectOptions :=
  let selectOptions :=
    {| select_maxRecords := Some pageSize; select_view := "Grid view";
       select_sort := None; select_filterByFormula := None;
       select_offset := None; select_fields := None |} in
  match offset with
  | Some f => if string_truthy f then with_offset f selectOptions
              else selectOptions
  | None => selectOptions
  end.

(** [pageSize: number = 20]; [None] is an argument left out or
    [undefined]. *)
Definition pageSize_or_default (pageSize : option number) : number :=
  match pageSize with
  | Some n => n
  | None => Int 20
  end.

Definition getPaginated (pageSize : option number) (offset : option string)
  : Async Response :=
  let pageSize := pageSize_or_default pageSize in
  try_catch
    (vars <- select_eachPage remote (table this)
               (getPaginated_selectOptions pageSize offset)
               (getPaginated_callback pageSize) ([], None) ;;
     ret {| success := true; data := Some (Many (fst vars)); count := None;
            nextOffset := snd vars; message := None; deletedCount := None;
            exists_ := None; error := None |})
    (fun error =>
       ret (failure (message_or error "Failed to fetch paginated records"))).

(** The [selectOptions] object of [count]. *)
Definition count_selectOptions (filterByFormula : option string) : SelectOptions :=
  let selectOptions :=
    {| select_maxRecords := None; select_view := "Grid view";
       select_sort := None; select_filterByFormula := None;
       select_offset := None; select_fields := Some [] |} in
  match filterByFormula with
  | Some f => if string_truthy f then with_filterByFormula f selectOptions
              else selectOptions
  | None => selectOptions
  end.

Definition count (filterByFormula : option string) : Async Response :=
  try_catch
    (count <- select_eachPage remote (table this)
                (count_selectOptions filterByFormula)
                (fun records count => Normal (count + length records, true)) 0 ;;
     ret {| success := true; data := None; Types.count := Some count;
            nextOffset := None; message := None; deletedCount := None;
            exists_ := None; error := None |})
    (fun error => ret (failure (message_or error "Failed to count records"))).

Definition exists_ (id : string) : Async Response :=
  try_catch
    (_ <- find remote (table this) id ;;
     ret {| success := true; data := None; Types.count := None;
            nextOffset := None; message := None; deletedCount := None;
            Types.exists_ := Some true; error := None |})
    (fun error =>
       if is_404 error then
         ret {| success := true; data := None; Types.count := None;
                nextOffset := None; message := None; deletedCount := None;
                Types.exists_ := Some false; error := None |}
       else ret (failure (message_or error "Failed to check record existence"))).

(** [{ ...this.config }]: a copy. *)
Definition getConfig : AirtableConfig :=
  {| apiKey := apiKey (config this);
     baseId := baseId (config this);
     tableName := tableName (config this) |}.

(** [this.config.tableName = tableName; this.table = this.base(tableName)]. *)
Definition switchTable (tableName : string) : Manager :=
  {| base := base this;
     table := table_of (base this) tableName;
     config := {| apiKey := apiKey (config this);
                  baseId := baseId (config this);
                  tableName := tableName |} |}.

End Methods.

(** *** The public interface, one call at a time *)

(** [getAll(options = {})]: the default argument. *)
Definition no_options : GetAllRecordsOptions :=
  {| maxRecords := None; view := None; sort := None; filterByFormula := None |}.

Inductive Operation : Type :=
| Create (input : CreateRecordInput)
| GetAll (options : option GetAllRecordsOptions)
| GetById (id : string)
| Search (options : SearchOptions)
| Update (input : UpdateRecordInput)
| Delete (id : string)
| BulkCreate (input : BulkCreateInput)
| BulkUpdate (input : BulkUpdateInput)
| BulkDelete (input : BulkDeleteInput)
| GetPaginated (pageSize : option number) (offset : option string)
| Count (filterByFormula : option string)
| Exists (id : string)
| GetConfig
| SwitchTable (tableName : string).

(** What a call hands back: a response envelope (the promise of an
    [async] method, once fulfilled), the configuration, or nothing. *)
Inductive Returned : Type :=
| Envelope (r : Response)
| Config (c : AirtableConfig)
| Void.

Definition fulfilled (this : Manager) (m : Async Response) (w : World)
  : Settlement Returned * Manager * World :=
  match m w with
  | (Settled (Normal r), w') => (Settled (Normal (Envelope r)), this, w')
  | (Settled (Throw e), w') => (Settled (Throw e), this, w')
  | (Pending unhandled, w') => (Pending unhandled, this, w')
  end.

(** One call on the instance [this] in the world [w]: how the call
    ends, the instance and the world after it. *)
Definition call (remote : Remote) (op : Operation) (this : Manager) (w : World)
  : Settlement Returned * Manager * World :=
  match op with
  | Create input => fulfilled this (create remote this input) w
  | GetAll options =>
      fulfilled this
        (getAll remote this match options with Some o => o | None => no_options end) w
  | GetById id => fulfilled this (getById remote this id) w
  | Search options => fulfilled this (search remote this options) w
  | Update input => fulfilled this (update remote this input) w
  | Delete id => fulfilled this (delete remote this id) w
  | BulkCreate input => fulfilled this (bulkCreate remote this input) w
  | BulkUpdate input => fulfilled this (bulkUpdate remote this input) w
  | BulkDelete input => fulfilled this (bulkDelete remote this input) w
  | GetPaginated pageSize offset =>
      fulfilled this (getPaginated remote this pageSize offset) w
  | Count filterByFormula => fulfilled this (count remote this filterByFormula) w
  | Exists id => fulfilled this (exists_ remote this id) w
  | GetConfig => (Settled (Normal (Config (getConfig this))), this, w)
  | SwitchTable tableName =>
      (Settled (Normal Void), switchTable this tableName, w)
  end.

(** A sequence of calls, one after the other, from one caller. *)
Fixpoint run (remote : Remote) (ops : list Operation) (this : Manager) (w : World)
  : Manager * World :=
  match ops with
  | [] => (this, w)
  | op :: ops' =>
      let '(_, this', w') := call remote op this w in
      run remote ops' this' w'
  end.

End AirtableManager.

(** ** Reference definitions *)

Module Reference.

Import Airtable.

(** The filter formula as the specification words it: entries whose
    value is null, undefined or the empty string are skipped, each
    remaining entry yields one predicate by the type of its value,
    and the predicates are combined by their number. *)
Definition skipped (value : Value) : bool :=
  match value with
  | VNull => true
  | VUndefined => true
  | VString s => String.eqb s EmptyString
  | _ => false
  end.

(** The predicate of one entry.  A value of another type has a
    predicate when it has a string form. *)
Definition predicate (field : string) (value : Value) : Completion string :=
  match value with
  | VString s => Normal ("SEARCH(" ++ dquote ++ s ++ dquote ++ ", {" ++ field ++ "}) > 0")%string
  | VNumber n => Normal ("{" ++ field ++ "} = " ++ number_to_string n)%string
  | VBoolean true => Normal ("{" ++ field ++ "} = TRUE()")%string
  | VBoolean false => Normal ("{" ++ field ++ "} = FALSE()")%string
  | other =>
      Js.bind (to_string other) (fun text =>
      Normal ("{" ++ field ++ "} = " ++ dquote ++ text ++ dquote)%string)
  end.

Fixpoint predicates (entries : list (string * Value)) : Completion (list string) :=
  match entries with
  | [] => Normal []
  | (field, value) :: rest =>
      if skipped value then predicates rest
      else Js.bind (predicate field value) (fun p =>
           Js.bind (predicates rest) (fun ps => Normal (p :: ps)))
  end.

(** [p1, p2, ..., pn] *)
Fixpoint comma_separated (ps : list string) : string :=
  match ps with
  | [] => EmptyString
  | [p] => p
  | p :: rest => (p ++ ", " ++ comma_separated rest)%string
  end.

Definition formula (entries : list (string * Value)) : Completion string :=
  Js.bind (predicates entries) (fun ps =>
  match ps with
  | [] => Normal EmptyString
  | [p] => Normal p
  | _ => Normal ("AND(" ++ comma_separated ps ++ ")")%string
  end).

(** The consecutive chunks of at most [batchSize] elements of a list. *)
Equations? chunks {A} (l : list A) : list (list A) by wf (length l) lt :=
  chunks [] := [];
  chunks (a :: l) :=
    firstn AirtableManager.batchSize (a :: l)
      :: chunks (skipn AirtableManager.batchSize (a :: l)).
Proof.
  change (length (skipn 9 l) < S (length l)).
  rewrite length_skipn. lia.
Qed.

(** The chunks submitted one after the other, each by one call; the
    first call that fails ends the sequence.  [answer] is what the
    remote store answers to a chunk, [issue] the call that submits it,
    and [step] what the caller keeps of an answer. *)
Fixpoint submit {A R St} (answer : World -> list A -> Completion R)
    (issue : list A -> Call) (step : St -> list A -> R -> St)
    (cs : list (list A)) (s : St) (w : World) : Completion St * World :=
  match cs with
  | [] => (Normal s, w)
  | c :: cs' =>
      match answer w c with
      | Normal r => submit answer issue step cs' (step s c r) (w ++ [issue c])
      | Throw e => (Throw e, w ++ [issue c])
      end
  end.

(** [answered answer issue w cs rs]: from the world [w] on, the calls
    that submit the chunks [cs] in turn are answered by [rs]. *)
Inductive answered {A R} (answer : World -> list A -> Completion R)
    (issue : list A -> Call) : World -> list (list A) -> list R -> Prop :=
| answered_nil (w : World) : answered answer issue w [] []
| answered_cons (w : World) (c : list A) (cs : list (list A)) (r : R) (rs : list R) :
    answer w c = Normal r ->
    answered answer issue (w ++ [issue c]) cs rs ->
    answered answer issue w (c :: cs) (r :: rs).

(** What the caller has kept once every chunk is answered. *)
Definition kept {A R St} (step : St -> list A -> R -> St)
    (cs : list (list A)) (rs : list R) (s : St) : St :=
  fold_left (fun s cr => step s (fst cr) (snd cr)) (combine cs rs) s.

(** What each bulk method keeps of the answer to a chunk: the records
    of the answer, formatted, after those it has; or the size of the
    chunk, added to its count. *)
Definition keep_formatted {A} (results : list AirtableRecord) (batch : list A)
    (records : list Record_) : list AirtableRecord :=
  results ++ map AirtableManager.format records.

Definition keep_count (deletedCount : nat) (batch : list string)
    (records : list Record_) : nat :=
  deletedCount + length batch.

(** The method returned an envelope with [success: true]. *)
Definition succeeded (out : Settlement Response * World) : bool :=
  match fst out with
  | Settled (Normal r) => success r
  | _ => false
  end.

(** [chunked issue l out w]: the method that ended in [out], started
    in the world [w], has issued one call for each of the first [k]
    chunks of [l], in their order, and nothing else; [k] is the number
    of chunks when the method succeeded. *)
Definition chunked {A} (issue : list A -> Call) (l : list A)
    (out : Settlement Response * World) (w : World) : Prop :=
  exists k,
    k <= length (chunks l)
    /\ snd out = w ++ map issue (firstn k (chunks l))
    /\ (succeeded out = true -> k = length (chunks l)).

(** The two cases of a response envelope: a success carries a payload
    and no error, a failure carries an error and no payload. *)
Definition populated {A} (o : option A) : bool :=
  match o with
  | Some _ => true
  | None => false
  end.

Definition has_payload (r : Response) : bool :=
  populated (data r) || populated (count r) || populated (nextOffset r)
  || populated (message r) || populated (deletedCount r) || populated (exists_ r).

Definition well_formed (r : Response) : bool :=
  if success r then has_payload r && negb (populated (error r))
  else populated (error r) && negb (has_payload r).

(** The page a query delivers first, when its first request succeeds. *)
Definition first_page (pages : Pages) : option (list Record_) :=
  match pages with
  | PageError _ => None
  | LastPage page => Some page
  | MorePages page _ => Some page
  end.

(** The error text a single-record method reports for a remote
    failure [e], as specified: the normalized text for a missing
    resource, else the remote's own message, else the fallback of the
    method when there is no message (none, or an empty one). *)
Inductive surfaces (e : Error) (fallback : string) : string -> Prop :=
| surfaces_not_found :
    statusCode e = Some (Int 404) ->
    surfaces e fallback "Record not found"
| surfaces_message (m : string) :
    statusCode e <> Some (Int 404) ->
    Js.message e = Some m -> m <> EmptyString ->
    surfaces e fallback m
| surfaces_fallback :
    statusCode e <> Some (Int 404) ->
    Js.message e = None \/ Js.message e = Some EmptyString ->
    surfaces e fallback fallback.

(** [{ success: true, exists }]. *)
Definition existence (b : bool) : Response :=
  {| success := true; data := None; count := None; nextOffset := None;
     message := None; deletedCount := None; exists_ := Some b;
     error := None |}.

(** A method answers: in every world it returns, and what it returns is
    a well-formed envelope. *)
Definition answers (m : Async Response) : Prop :=
  forall w, exists r w', m w = (Normal r, w') /\ well_formed r = true.

(** What every sequence of calls preserves of an instance: the key and
    the base identifier of its configuration, its base handle, and
    that its table handle is the configured table of that base. *)
Definition bound_to (apiKey baseId : string) (this : AirtableManager.Manager)
  : Prop :=
  Types.apiKey (AirtableManager.config this) = apiKey
  /\ Types.baseId (AirtableManager.config this) = baseId
  /\ AirtableManager.base this = Airtable.base baseId
  /\ AirtableManager.table this
     = table_of (AirtableManager.base this)
                (Types.tableName (AirtableManager.config this)).

End Reference.

(** ** Sample instances and remote stores *)

Module Fixtures.

Import Airtable.

Definition manager : AirtableManager.Manager :=
  AirtableManager.constructor "key" "app1" "Orders".

Definition stored (id : string) (f : Fields) : Record_ :=
  {| record_id := id; record_fields := f;
     _rawJson := Some {| raw_createdTime := Some "2024-01-01" |} |}.

Definition not_found : Error :=
  {| statusCode := Some (Int 404); Js.message := Some "NOT_FOUND" |}.

Definition unavailable : Error :=
  {| statusCode := Some (Int 503); Js.message := Some "Service unavailable" |}.

(** A store that holds the record "rec1" only, answers a write with
    one record for each one submitted, and delivers two pages of two
    records to every query. *)
Definition store : Remote :=
  {| on_create := fun _ _ batch =>
       Normal (map (fun input => stored "recNew" (create_fields input)) batch);
     on_update := fun _ _ batch =>
       if existsb (fun input => negb (String.eqb (update_id input) "rec1")) batch
       then Throw not_found
       else Normal (map (fun input => stored (update_id input) (update_fields input))
                        batch);
     on_destroy := fun _ _ ids =>
       if existsb (fun id => String.eqb id "gone") ids then Throw not_found
       else Normal (map (fun id => stored id []) ids);
     on_find := fun _ _ id =>
       if String.eqb id "rec1" then Normal (stored "rec1" [])
       else if String.eqb id "locked" then Throw unavailable
       else Throw not_found;
     on_select := fun _ _ _ =>
       MorePages [stored "rec1" []; stored "rec2" []]
                 (LastPage [stored "rec3" []; stored "rec4" []]) |}.

(** A store that is down: every call fails. *)
Definition down : Remote :=
  {| on_create := fun _ _ _ => Throw unavailable;
     on_update := fun _ _ _ => Throw unavailable;
     on_destroy := fun _ _ _ => Throw unavailable;
     on_find := fun _ _ _ => Throw unavailable;
     on_select := fun _ _ _ => PageError unavailable |}.

Definition twenty_five : BulkCreateInput :=
  {| records := repeat {| create_fields := [("name", VString "x")] |} 25 |}.

(** What [bulkCreate] returns for them on [store]. *)
Definition created_twenty_five : Response :=
  {| success := true;
     data := Some (Many (repeat
                     {| id := "recNew"; fields := [("name", VString "x")];
                        createdTime := Some "2024-01-01" |} 25));
     count := Some 25; nextOffset := None; message := None;
     deletedCount := None; exists_ := None; error := None |}.

Definition twelve : BulkDeleteInput := {| ids := repeat "rec1" 12 |}.

(** What [bulkDelete] returns for them on [store]. *)
Definition deleted_twelve : Response :=
  {| success := true; data := None; count := None; nextOffset := None;
     message := Some "12 records deleted successfully";
     deletedCount := Some 12; exists_ := None; error := None |}.

End Fixtures.

(** ** What a query delivers, and where a call goes *)

Module Delivery.

Import Airtable.

(** The records of the pages a query delivers before it ends or fails,
    in their order. *)
Fixpoint records_of (pages : Pages) : list Record_ :=
  match pages with
  | PageError _ => []
  | LastPage page => page
  | MorePages page rest => page ++ records_of rest
  end.

(** The number of requests it takes to read the pages to their end. *)
Fixpoint requests_of (pages : Pages) : nat :=
  match pages with
  | PageError _ => 1
  | LastPage _ => 1
  | MorePages _ rest => S (requests_of rest)
  end.

(** The error that ends the pages, when a request fails. *)
Fixpoint failure_of (pages : Pages) : option Error :=
  match pages with
  | PageError e => Some e
  | LastPage _ => None
  | MorePages _ rest => failure_of rest
  end.

(** The table a call is addressed to. *)
Definition table_of_call (c : Call) : Table :=
  match c with
  | CreateCall t _ => t
  | UpdateCall t _ => t
  | DestroyCall t _ => t
  | FindCall t _ => t
  | SelectPage t _ _ => t
  end.

(** [addressed this w w']: the world [w'] is [w] with more calls, all
    to the table of [this]. *)
Definition addressed (this : AirtableManager.Manager) (w w' : World) : Prop :=
  exists calls,
    w' = w ++ calls
    /\ Forall (fun c => table_of_call c = AirtableManager.table this) calls.

(** The entries of a filter mapping that are not skipped. *)
Definition qualifying (entries : list (string * Value)) : list (string * Value) :=
  filter (fun entry => negb (Reference.skipped (snd entry))) entries.

(** [stopped_at answer issue cs w k e]: from the world [w] on, the
    calls for the first [k] chunks of [cs] are answered, and the call
    for the next chunk fails with [e]. *)
Definition stopped_at {A R} (answer : World -> list A -> Completion R)
    (issue : list A -> Call) (cs : list (list A)) (w : World) (k : nat)
    (e : Error) : Prop :=
  (exists done, Reference.answered answer issue w (firstn k cs) done)
  /\ exists c,
       nth_error cs k = Some c
       /\ answer (w ++ map issue (firstn k cs)) c = Throw e.

(** [submitted answer issue fallback l out w]: the method that ended
    in [out], started in the world [w], has issued one call for each
    chunk of [l] in turn, had them all answered, and succeeded; or the
    calls for the first [k] chunks were answered, the call for the next
    chunk failed and was the last one issued, and the method returned a
    failure envelope with the message of that error, or [fallback]. *)
Definition submitted {A R} (answer : World -> list A -> Completion R)
    (issue : list A -> Call) (fallback : string) (l : list A)
    (out : Settlement Response * World) (w : World) : Prop :=
  (exists rs,
      Reference.answered answer issue w (Reference.chunks l) rs
      /\ Reference.succeeded out = true
      /\ snd out = w ++ map issue (Reference.chunks l))
  \/ (exists k e,
        stopped_at answer issue (Reference.chunks l) w k e
        /\ out = (Normal (AirtableManager.failure (message_or e fallback)),
                  w ++ map issue (firstn (S k) (Reference.chunks l)))).

(** [well_returned op out]: the call of [op] that ended in [out] has
    returned and not raised, and it has returned a well-formed response
    envelope, or the configuration when [op] is [getConfig], or nothing
    when [op] is [switchTable]. *)
Definition well_returned (op : AirtableManager.Operation)
    (out : Settlement AirtableManager.Returned) : Prop :=
  match out with
  | Settled (Normal (AirtableManager.Envelope r)) =>
      Reference.well_formed r = true
      /\ op <> AirtableManager.GetConfig
      /\ (forall name, op <> AirtableManager.SwitchTable name)
  | Settled (Normal (AirtableManager.Config c)) => op = AirtableManager.GetConfig
  | Settled (Normal AirtableManager.Void) =>
      exists name, op = AirtableManager.SwitchTable name
  | Settled (Throw _) => False
  | Pending _ => False
  end.

(** [{ success: true, data: [records], count }]. *)
Definition listing (rs : list AirtableRecord) : Response :=
  {| success := true; data := Some (Many rs); count := Some (length rs);
     nextOffset := None; message := None; deletedCount := None;
     exists_ := None; error := None |}.

(** [{ success: true, data: record }]. *)
Definition single (r : AirtableRecord) : Response :=
  {| success := true; data := Some (One r); count := None;
     nextOffset := None; message := None; deletedCount := None;
     exists_ := None; error := None |}.

(** [{ success: true, count }]. *)
Definition counted (n : nat) : Response :=
  {| success := true; data := None; count := Some n;
     nextOffset := None; message := None; deletedCount := None;
     exists_ := None; error := None |}.

(** [{ success: true, deletedCount, message }]. *)
Definition deleted (n : nat) : Response :=
  {| success := true; data := None; count := None; nextOffset := None;
     message := Some (number_to_string (Int (Z.of_nat n))
                      ++ " records deleted successfully")%string;
     deletedCount := Some n; exists_ := None; error := None |}.

(** Eleven identifiers of which the last is refused by the sample
    store. *)
Definition eleven : BulkDeleteInput :=
  {| ids := repeat "rec1" 10 ++ ["gone"] |}.

End Delivery.

(** ** service/mail/email.class *)

Module Email.

(** The [nodemailer] package, as the class uses it: the options of
    [createTransport], the message handed to [sendMail], and the
    receipt, of which [messageId] is read. *)
Record TransportOptions : Type := {
  transport_service : string;
  auth_user : string;
  auth_pass : string
}.

Record Message : Type := {
  from : string;
  to : string;
  subject : string;
  html : string
}.

Record SentMessageInfo : Type := { messageId : option string }.

(** A line written to the console: by [console.log] with its text, or
    by [console.error] with its label and the error it is given. *)
Inductive ConsoleLine : Type :=
| Logged (text : string)
| Errored (label : string) (e : Error).

(** The messages handed to the relay so far, with the transport they
    went through, and the console, oldest first. *)
Record Outside : Type := {
  sent : list (TransportOptions * Message);
  console : list ConsoleLine
}.

(** What the relay answers to a message, given what was sent before:
    a receipt (which may be [undefined]) or an error. *)
Definition Relay : Type :=
  list (TransportOptions * Message) -> TransportOptions -> Message ->
  Completion (option SentMessageInfo).

(** The private members of the class; the parameter properties
    [service], [address] and [password], then [transporter] and
    [from]. *)
Record Instance : Type := {
  service : string;
  address : string;
  password : string;
  transporter : TransportOptions;
  sender : string
}.

(** [new Email(service, address, password)]. *)
Definition constructor (service address password : string) : Instance :=
  {| service := service;
     address := address;
     password := password;
     sender := address;
     transporter := {| transport_service := service;
                       auth_user := address;
                       auth_pass := password |} |}.

(** [info?.messageId] in a template literal. *)
Definition messageId_text (info : option SentMessageInfo) : string :=
  match info with
  | Some i => match messageId i with
              | Some m => m
              | None => "undefined"
              end
  | None => "undefined"
  end.

(** [sendMarkdownEmail({ to, subject, html })]: the completion of the
    promise and the outside after the call. *)
Definition sendMarkdownEmail (relay : Relay) (this : Instance)
    (to subject html : string) (o : Outside)
  : Completion (option SentMessageInfo) * Outside :=
  let m := {| from := sender this; to := to; subject := subject; html := html |} in
  let posted := sent o ++ [(transporter this, m)] in
  match relay (sent o) (transporter this) m with
  | Normal info =>
      (Normal info,
       {| sent := posted;
          console := console o ++
            [Logged (template ["✅ Email sent to "; to; ": "; messageId_text info])] |})
  | Throw error =>
      (Throw error,
       {| sent := posted;
          console := console o ++ [Errored "❌ Error sending email:" error] |})
  end.

(** Mails sent one after the other by one caller, who goes on after a
    mail that failed; a mail is given by [to], [subject] and [html]. *)
Fixpoint send_all (relay : Relay) (this : Instance)
    (mails : list (string * string * string)) (o : Outside) : Outside :=
  match mails with
  | [] => o
  | (to, subject, html) :: rest =>
      send_all relay this rest (snd (sendMarkdownEmail relay this to subject html o))
  end.

End Email.

(** * Properties *)

Import Airtable.

(** ** The filter formula *)

Section FilterFormula.

Import AirtableManager.

Lemma concat_comma_separated (ps : list string) :
  String.concat ", " ps = Reference.comma_separated ps.
Proof.
  induction ps as [|p [|q rest] IH]; try reflexivity.
  change (String.concat ", " (p :: q :: rest))
    with (p ++ ", " ++ String.concat ", " (q :: rest))%string.
  now rewrite IH.
Qed.

(** One round of the callback: a skipped entry leaves [conditions] as
    it is, another one appends its predicate. *)
Lemma push_condition_predicate (conditions : list string) (field : string)
    (value : Value) :
  push_condition conditions (field, value) =
  if Reference.skipped value then Normal conditions
  else Js.bind (Reference.predicate field value)
         (fun p => Normal (conditions ++ [p])).
Proof.
  destruct value as [| |[|]|n|s|[text|e]]; cbn; try reflexivity.
  destruct (String.eqb s EmptyString); reflexivity.
Qed.

Lemma forEach_push_condition (filters : list (string * Value)) :
  forall conditions,
    forEach push_condition filters conditions =
    Js.bind (Reference.predicates filters) (fun ps => Normal (conditions ++ ps)).
Proof.
  induction filters as [|[field value] rest IH]; intros conditions; cbn [forEach].
  - cbn. now rewrite app_nil_r.
  - rewrite push_condition_predicate. cbn [Reference.predicates].
    destruct (Reference.skipped value).
    + cbn [Js.bind]. apply IH.
    + destruct (Reference.predicate field value) as [p|e]; cbn [Js.bind];
        [|reflexivity].
      rewrite IH.
      destruct (Reference.predicates rest) as [ps|e]; cbn [Js.bind];
        [|reflexivity].
      now rewrite <- app_assoc.
Qed.

End FilterFormula.

(** C1.  For every field-to-value mapping, given by its entries in
    [Object.entries] order, [buildFilterFormula] equals the reference
    definition: absent values (null, undefined, the empty string) are
    skipped, every other entry yields the predicate of its type, and
    the result is the empty string for no predicate, the predicate
    itself for one, and [AND(p1, p2, ...)] in entry order for more.  A
    value of another type whose string conversion raises makes both
    sides raise that error. *)
Theorem buildFilterFormula_refines_reference (filters : list (string * Value)) :
  AirtableManager.buildFilterFormula filters = Reference.formula filters.
Proof.
  unfold AirtableManager.buildFilterFormula, Reference.formula.
  rewrite forEach_push_condition.
  destruct (Reference.predicates filters) as [[|p [|q ps]]|e]; cbn [Js.bind app];
    try reflexivity.
  cbn [length Nat.eqb]. unfold template.
  rewrite concat_comma_separated. reflexivity.
Qed.

(** ** Single-record methods *)

Section SingleRecord.

Variable remote : Remote.
Variable this : AirtableManager.Manager.

Import AirtableManager.

(** The text of a catch clause that tests the status follows the
    specified relation. *)
Lemma surfaces_catch (e : Error) (fallback : string) :
  Reference.surfaces e fallback
    (if is_404 e then "Record not found" else message_or e fallback).
Proof.
  unfold is_404, message_or.
  destruct (statusCode e) as [[z| |text]|] eqn:Hs; cbn.
  1: destruct (Z.eqb_spec z 404) as [->|Hz];
       [now apply Reference.surfaces_not_found|].
  all: assert (Hne : statusCode e <> Some (Int 404)) by (rewrite Hs; congruence).
  all: destruct (Js.message e) as [m|] eqn:Hm;
         [|apply Reference.surfaces_fallback; auto].
  all: unfold string_truthy; destruct (String.eqb_spec m EmptyString) as [->|Hn];
         cbn; [apply Reference.surfaces_fallback; auto
              |apply Reference.surfaces_message; auto].
Qed.

(** The relation names one text for each error. *)
Lemma surfaces_deterministic (e : Error) (fallback text text' : string) :
  Reference.surfaces e fallback text ->
  Reference.surfaces e fallback text' ->
  text = text'.
Proof.
  intros H H'.
  destruct H as [Hs|m Hs Hm Hne|Hs Hm], H' as [Hs'|m' Hs' Hm' Hne'|Hs' Hm'];
    try reflexivity; try contradiction; try congruence.
  - destruct Hm' as [Hm'|Hm']; congruence.
  - destruct Hm as [Hm|Hm]; congruence.
Qed.

Lemma getById_failure (id : string) (w : World) (e : Error) :
  on_find remote w (table this) id = Throw e ->
  getById remote this id w =
  (Normal (failure (if is_404 e then "Record not found"
                    else message_or e "Failed to fetch record")),
   w ++ [FindCall (table this) id]).
Proof.
  intros H. unfold getById, try_catch, await, find. rewrite H. reflexivity.
Qed.

Lemma update_failure (input : UpdateRecordInput) (w : World) (e : Error) :
  on_update remote w (table this)
    [{| update_id := update_id input; update_fields := update_fields input |}]
    = Throw e ->
  update remote this input w =
  (Normal (failure (if is_404 e then "Record not found"
                    else message_or e "Failed to update record")),
   w ++ [UpdateCall (table this)
           [{| update_id := update_id input;
               update_fields := update_fields input |}]]).
Proof.
  intros H. unfold update, try_catch, await, Airtable.update. rewrite H.
  reflexivity.
Qed.

Lemma delete_failure (id : string) (w : World) (e : Error) :
  on_destroy remote w (table this) [id] = Throw e ->
  delete remote this id w =
  (Normal (failure (if is_404 e then "Record not found"
                    else message_or e "Failed to delete record")),
   w ++ [DestroyCall (table this) [id]]).
Proof.
  intros H. unfold delete, try_catch, await, destroy. rewrite H. reflexivity.
Qed.

End SingleRecord.

(** C3.  When the remote store fails the call of [getById], [update] or
    [delete] with an error [e], the method returns a failure envelope
    whose text is "Record not found" when [e] has status 404, and
    otherwise the message of [e], or the fallback text of the method
    when [e] has no message. *)
Theorem not_found_is_normalized (remote : Remote) (this : AirtableManager.Manager)
    (w : World) :
  (forall id e,
      on_find remote w (AirtableManager.table this) id = Throw e ->
      exists text,
        fst (AirtableManager.getById remote this id w)
          = Normal (AirtableManager.failure text)
        /\ Reference.surfaces e "Failed to fetch record" text)
  /\ (forall input e,
      on_update remote w (AirtableManager.table this)
        [{| update_id := update_id input; update_fields := update_fields input |}]
        = Throw e ->
      exists text,
        fst (AirtableManager.update remote this input w)
          = Normal (AirtableManager.failure text)
        /\ Reference.surfaces e "Failed to update record" text)
  /\ (forall id e,
      on_destroy remote w (AirtableManager.table this) [id] = Throw e ->
      exists text,
        fst (AirtableManager.delete remote this id w)
          = Normal (AirtableManager.failure text)
        /\ Reference.surfaces e "Failed to delete record" text).
Proof.
  repeat split; intros until e; intros H; eexists; split.
  - rewrite (getById_failure _ _ _ _ H). reflexivity.
  - apply surfaces_catch.
  - rewrite (update_failure _ _ _ _ H). reflexivity.
  - apply surfaces_catch.
  - rewrite (delete_failure _ _ _ _ H). reflexivity.
  - apply surfaces_catch.
Qed.

(** The sample store does not hold "rec9": [getById] reports it as the
    theorem says, and [delete] does so for "gone". *)
Lemma not_found_is_normalized_witness :
  (exists text,
      fst (AirtableManager.getById Fixtures.store Fixtures.manager "rec9" [])
        = Normal (AirtableManager.failure text)
      /\ Reference.surfaces Fixtures.not_found "Failed to fetch record" text)
  /\ (exists text,
      fst (AirtableManager.delete Fixtures.store Fixtures.manager "gone" [])
        = Normal (AirtableManager.failure text)
      /\ Reference.surfaces Fixtures.not_found "Failed to delete record" text).
Proof.
  split.
  - exact (proj1 (not_found_is_normalized Fixtures.store Fixtures.manager [])
             "rec9" Fixtures.not_found eq_refl).
  - exact (proj2 (proj2 (not_found_is_normalized Fixtures.store Fixtures.manager []))
             "gone" Fixtures.not_found eq_refl).
Defined.

(** ** Existence check *)

Lemma is_404_true (e : Error) :
  is_404 e = true <-> statusCode e = Some (Int 404).
Proof.
  unfold is_404. destruct (statusCode e) as [[z| |text]|]; split; intros H;
    try discriminate; try reflexivity.
  - apply Z.eqb_eq in H. now subst.
  - injection H as ->. reflexivity.
Qed.

Lemma is_404_false (e : Error) :
  is_404 e = false <-> statusCode e <> Some (Int 404).
Proof.
  rewrite <- is_404_true. destruct (is_404 e); split; congruence.
Qed.

(** C4.  [exists] issues one fetch.  It returns
    [{success: true, exists: true}] when the fetch succeeds,
    [{success: true, exists: false}] when the fetch fails with status
    404, and a failure envelope for every other failure of the fetch:
    a negative check is a success, with no error. *)
Theorem exists_outcomes (remote : Remote) (this : AirtableManager.Manager)
    (id : string) (w : World) :
  (forall r,
      on_find remote w (AirtableManager.table this) id = Normal r ->
      fst (AirtableManager.exists_ remote this id w)
        = Normal (Reference.existence true))
  /\ (forall e,
      on_find remote w (AirtableManager.table this) id = Throw e ->
      statusCode e = Some (Int 404) ->
      fst (AirtableManager.exists_ remote this id w)
        = Normal (Reference.existence false))
  /\ (forall e,
      on_find remote w (AirtableManager.table this) id = Throw e ->
      statusCode e <> Some (Int 404) ->
      fst (AirtableManager.exists_ remote this id w)
        = Normal (AirtableManager.failure
                    (message_or e "Failed to check record existence")))
  /\ snd (AirtableManager.exists_ remote this id w)
       = w ++ [FindCall (AirtableManager.table this) id].
Proof.
  unfold AirtableManager.exists_, try_catch, await, find.
  repeat split.
  - intros r ->. reflexivity.
  - intros e -> H. apply is_404_true in H. cbn. now rewrite H.
  - intros e -> H. apply is_404_false in H. cbn. now rewrite H.
  - destruct (on_find remote w (AirtableManager.table this) id) as [r|e]; cbn;
      [reflexivity|].
    destruct (is_404 e); reflexivity.
Qed.

(** The sample store holds "rec1", reports "rec9" as missing, and
    cannot serve "locked". *)
Lemma exists_outcomes_witness :
  fst (AirtableManager.exists_ Fixtures.store Fixtures.manager "rec1" [])
    = Normal (Reference.existence true)
  /\ fst (AirtableManager.exists_ Fixtures.store Fixtures.manager "rec9" [])
    = Normal (Reference.existence false)
  /\ fst (AirtableManager.exists_ Fixtures.store Fixtures.manager "locked" [])
    = Normal (AirtableManager.failure "Service unavailable").
Proof.
  split; [|split].
  - exact (proj1 (exists_outcomes Fixtures.store Fixtures.manager "rec1" [])
             (Fixtures.stored "rec1" []) eq_refl).
  - exact (proj1 (proj2 (exists_outcomes Fixtures.store Fixtures.manager "rec9" []))
             Fixtures.not_found eq_refl eq_refl).
  - refine (proj1 (proj2 (proj2
              (exists_outcomes Fixtures.store Fixtures.manager "locked" [])))
             Fixtures.unavailable eq_refl _).
    discriminate.
Defined.

(** ** Configuration *)

Section Configuration.

Variable remote : Remote.

Import AirtableManager.

(** Only [switchTable] changes the instance. *)
Lemma call_instance (op : Operation) (this : Manager) (w : World) :
  snd (fst (call remote op this w)) =
  match op with
  | SwitchTable name => switchTable this name
  | _ => this
  end.
Proof.
  destruct op; cbn [call]; try reflexivity; unfold fulfilled;
    match goal with |- context [match ?m w with _ => _ end] =>
      destruct (m w) as [[[r|e]|unhandled] w'] end; reflexivity.
Qed.

Lemma constructor_bound (apiKey baseId tableName : string) :
  Reference.bound_to apiKey baseId (constructor apiKey baseId tableName).
Proof. repeat split. Qed.

Lemma call_bound (apiKey baseId : string) (op : Operation) (this : Manager)
    (w : World) :
  Reference.bound_to apiKey baseId this ->
  Reference.bound_to apiKey baseId (snd (fst (call remote op this w))).
Proof.
  intros H. rewrite call_instance. destruct op; try exact H.
  destruct H as (Hk & Hb & Hbase & _). repeat split; assumption.
Qed.

Lemma run_bound (apiKey baseId : string) (ops : list Operation) :
  forall this w,
    Reference.bound_to apiKey baseId this ->
    Reference.bound_to apiKey baseId (fst (run remote ops this w)).
Proof.
  induction ops as [|op ops IH]; intros this w H; cbn [run]; [exact H|].
  pose proof (call_bound op w H) as Hc.
  destruct (call remote op this w) as [[c this'] w']. cbn in Hc.
  now apply IH.
Qed.

End Configuration.

(** C8.  On an instance built by the constructor and used for any
    sequence of calls, [switchTable(name)] returns nothing, issues no
    remote call, and changes the active table only: [getConfig()] then
    reports [name] as the table and the key and base identifier given
    to the constructor, the base handle is the one the instance had,
    and the table handle is the table [name] of that base. *)
Theorem switchTable_changes_only_the_table (remote : Remote)
    (apiKey baseId tableName : string) (ops : list AirtableManager.Operation)
    (w : World) (name : string) :
  let before := AirtableManager.run remote ops
                  (AirtableManager.constructor apiKey baseId tableName) w in
  let after := AirtableManager.call remote (AirtableManager.SwitchTable name)
                 (fst before) (snd before) in
  fst (fst after) = Normal AirtableManager.Void
  /\ snd after = snd before
  /\ AirtableManager.getConfig (snd (fst after))
     = {| apiKey := apiKey; baseId := baseId; Types.tableName := name |}
  /\ AirtableManager.base (snd (fst after)) = AirtableManager.base (fst before)
  /\ AirtableManager.table (snd (fst after)) = table_of (Airtable.base baseId) name.
Proof.
  intros before after.
  destruct (run_bound remote ops w
              (constructor_bound apiKey baseId tableName))
    as (Hk & Hb & Hbase & _).
  fold before in Hk, Hb, Hbase.
  subst after. cbn [AirtableManager.call fst snd].
  unfold AirtableManager.getConfig, AirtableManager.switchTable. cbn.
  rewrite Hk, Hb, Hbase. repeat split.
Qed.


(** ** Queries *)

Section Queries.

Variable remote : Remote.
Variable this : AirtableManager.Manager.

Import AirtableManager.

Lemma forEach_push_formatted (page : list Record_) :
  forall records,
    forEach push_formatted page records = Normal (records ++ map format page).
Proof.
  induction page as [|record page IH]; intros records; cbn [forEach map].
  - now rewrite app_nil_r.
  - cbn [push_formatted formatRecord Js.bind]. rewrite IH.
    now rewrite <- app_assoc.
Qed.

(** A query without [offset] passes the check of the package: its
    pages are requested. *)
Lemma select_eachPage_valid {St} (t : Table) (o : SelectOptions)
    (callback : list Record_ -> St -> Completion (St * bool)) (s : St) (w : World) :
  select_offset o = None ->
  select_eachPage remote t o callback s w
  = eachPage_from t o (on_select remote w t o) 0 callback s w.
Proof.
  intros H. unfold select_eachPage, await, lift, select, eachPage. now rewrite H.
Qed.

(** A query with an [offset] is refused, and nothing is requested. *)
Lemma select_eachPage_refused {St} (t : Table) (o : SelectOptions)
    (callback : list Record_ -> St -> Completion (St * bool)) (s : St) (w : World)
    (offset : string) :
  select_offset o = Some offset ->
  select_eachPage remote t o callback s w
  = (Throw invalid_select_parameters, w).
Proof.
  intros H. unfold select_eachPage, await, lift, select. now rewrite H.
Qed.

Lemma getAll_selectOptions_offset (options : GetAllRecordsOptions) :
  select_offset (getAll_selectOptions options) = None.
Proof.
  unfold getAll_selectOptions.
  destruct (sort options), (filterByFormula options) as [f|];
    try destruct (string_truthy f); reflexivity.
Qed.

Lemma count_selectOptions_offset (filterByFormula : option string) :
  select_offset (count_selectOptions filterByFormula) = None.
Proof.
  unfold count_selectOptions.
  destruct filterByFormula as [f|]; [destruct (string_truthy f)|]; reflexivity.
Qed.

(** A query issues the requests for its pages [k], [k + 1], ... and at
    least the first one. *)
Lemma eachPage_from_calls {St} (t : Table) (o : SelectOptions) (pages : Pages)
    (callback : list Record_ -> St -> Completion (St * bool)) :
  forall k s w,
  exists n,
    1 <= n
    /\ snd (eachPage_from t o pages k callback s w)
       = w ++ map (SelectPage t o) (seq k n).
Proof.
  induction pages as [e|page|page rest IH]; intros k s w; cbn [eachPage_from].
  - exists 1. split; [lia|reflexivity].
  - exists 1. split; [lia|].
    destruct (callback page s) as [[s' [|]]|e]; reflexivity.
  - destruct (callback page s) as [[s' [|]]|e].
    + destruct (IH (S k) s' (w ++ [SelectPage t o k])) as [n [Hn Hcalls]].
      exists (S n). split; [lia|].
      rewrite Hcalls, <- app_assoc. reflexivity.
    + exists 1. split; [lia|reflexivity].
    + exists 1. split; [lia|reflexivity].
Qed.

(** A [try { x = await m; return k(x) } catch (e) { return h(e) }]
    returns when [m] settles, and issues the calls of [m]. *)
Lemma try_await_ret {A B} (m : Async A) (k : A -> B) (h : Error -> B) (w : World) :
  try_catch (x <- m ;; ret (k x)) (fun e => ret (h e)) w
  = (match fst (m w) with
     | Settled (Normal a) => Settled (Normal (k a))
     | Settled (Throw e) => Settled (Normal (h e))
     | Pending unhandled => Pending unhandled
     end, snd (m w)).
Proof.
  unfold try_catch, await, ret.
  destruct (m w) as [[[a|e]|unhandled] w']; reflexivity.
Qed.


Import AirtableManager.

(** The callback of [getAll] takes every page to its end: the records
    of all the pages are appended, one request is issued for each page,
    and a failed request ends the query with its error. *)
Lemma eachPage_from_appends (t : Table) (o : SelectOptions) (pages : Pages) :
  forall k records w,
    eachPage_from t o pages k
      (fun pageRecords records =>
         Js.bind (forEach push_formatted pageRecords records)
                 (fun records => Normal (records, true)))
      records w
    = (match Delivery.failure_of pages with
       | None => Normal (records ++ map format (Delivery.records_of pages))
       | Some e => Throw e
       end,
       w ++ map (SelectPage t o) (seq k (Delivery.requests_of pages))).
Proof.
  induction pages as [e|page|page rest IH]; intros k records w;
    cbn [eachPage_from Delivery.failure_of Delivery.records_of
         Delivery.requests_of seq map].
  - reflexivity.
  - rewrite forEach_push_formatted. reflexivity.
  - rewrite forEach_push_formatted. cbn [Js.bind]. rewrite IH.
    rewrite map_app, <- !app_assoc. reflexivity.
Qed.

(** The callback of [count] adds up the sizes of the pages. *)
Lemma eachPage_from_counts (t : Table) (o : SelectOptions) (pages : Pages) :
  forall k n w,
    eachPage_from t o pages k
      (fun records count => Normal (count + length records, true)) n w
    = (match Delivery.failure_of pages with
       | None => Normal (n + length (Delivery.records_of pages))
       | Some e => Throw e
       end,
       w ++ map (SelectPage t o) (seq k (Delivery.requests_of pages))).
Proof.
  induction pages as [e|page|page rest IH]; intros k n w;
    cbn [eachPage_from Delivery.failure_of Delivery.records_of
         Delivery.requests_of seq map].
  - reflexivity.
  - reflexivity.
  - rewrite IH, length_app, Nat.add_assoc, <- app_assoc. reflexivity.
Qed.

Lemma getAll_reads_all_pages (options : GetAllRecordsOptions) (w : World) :
  let query := getAll_selectOptions options in
  let pages := on_select remote w (table this) query in
  getAll remote this options w
  = (Normal match Delivery.failure_of pages with
            | None => Delivery.listing (map format (Delivery.records_of pages))
            | Some e => failure (message_or e "Failed to fetch records")
            end,
     w ++ map (SelectPage (table this) query) (seq 0 (Delivery.requests_of pages))).
Proof.
  intros query pages. unfold getAll. rewrite try_await_ret.
  rewrite select_eachPage_valid by apply getAll_selectOptions_offset.
  fold query. fold pages.
  rewrite eachPage_from_appends. cbn [fst snd app].
  destruct (Delivery.failure_of pages); reflexivity.
Qed.

Lemma count_reads_all_pages (filterByFormula : option string) (w : World) :
  let query := count_selectOptions filterByFormula in
  let pages := on_select remote w (table this) query in
  count remote this filterByFormula w
  = (Normal match Delivery.failure_of pages with
            | None => Delivery.counted (length (Delivery.records_of pages))
            | Some e => failure (message_or e "Failed to count records")
            end,
     w ++ map (SelectPage (table this) query) (seq 0 (Delivery.requests_of pages))).
Proof.
  intros query pages. unfold count. rewrite try_await_ret.
  rewrite select_eachPage_valid by apply count_selectOptions_offset.
  fold query. fold pages.
  rewrite eachPage_from_counts. cbn [fst snd Nat.add].
  destruct (Delivery.failure_of pages); reflexivity.
Qed.


Lemma requests_of_positive (pages : Pages) : 1 <= Delivery.requests_of pages.
Proof. destruct pages; cbn; lia. Qed.

Lemma getAll_returns (options : GetAllRecordsOptions) (w : World) :
  exists r, fst (getAll remote this options w) = Normal r.
Proof.
  rewrite getAll_reads_all_pages. eexists. reflexivity.
Qed.

Lemma getAll_calls (options : GetAllRecordsOptions) (w : World) :
  exists n,
    1 <= n
    /\ snd (getAll remote this options w)
       = w ++ map (SelectPage (table this) (getAll_selectOptions options)) (seq 0 n).
Proof.
  rewrite getAll_reads_all_pages. cbn [snd]. eexists.
  split; [apply requests_of_positive|reflexivity].
Qed.

Lemma getAll_selectOptions_truthy (options : GetAllRecordsOptions) :
  select_maxRecords (getAll_selectOptions options) <> Some (Int 0)
  /\ select_view (getAll_selectOptions options) <> EmptyString.
Proof.
  assert (Hm : select_maxRecords (getAll_selectOptions options)
               = Some match maxRecords options with
                      | Some n => if number_truthy n then n else Int 100
                      | None => Int 100
                      end
               /\ select_view (getAll_selectOptions options)
                  = match view options with
                    | Some v => if string_truthy v then v else "Grid view"
                    | None => "Grid view"
                    end).
  { unfold getAll_selectOptions.
    destruct (sort options), (filterByFormula options) as [f|];
      try destruct (string_truthy f); split; reflexivity. }
  destruct Hm as [-> ->]. split.
  - destruct (maxRecords options) as [[z| |text]|]; cbn; try discriminate.
    destruct (Z.eqb_spec z 0) as [->|Hz]; cbn; congruence.
  - destruct (view options) as [v|]; [|discriminate].
    unfold string_truthy.
    destruct (String.eqb_spec v EmptyString); cbn; [discriminate|assumption].
Qed.

End Queries.

(** C9.  [getAll] takes its defaults by falsiness: called with
    [maxRecords: 0] it does what it does with [maxRecords] left out,
    and asks the remote store for 100 records; called with the empty
    string as [view] it does what it does with [view] left out, and
    asks for "Grid view".  Whatever the options, no request of [getAll]
    carries [maxRecords: 0] or an empty view. *)
Theorem getAll_defaults_by_falsiness (remote : Remote)
    (this : AirtableManager.Manager) (m : option number) (v : option string)
    (s : option (list SortSpec)) (f : option string) (w : World) :
  let zero := {| maxRecords := Some (Int 0); view := v; sort := s;
                 filterByFormula := f |} in
  let empty := {| maxRecords := m; view := Some EmptyString; sort := s;
                  filterByFormula := f |} in
  AirtableManager.getAll remote this zero w
    = AirtableManager.getAll remote this
        {| maxRecords := None; view := v; sort := s; filterByFormula := f |} w
  /\ select_maxRecords (AirtableManager.getAll_selectOptions zero) = Some (Int 100)
  /\ AirtableManager.getAll remote this empty w
    = AirtableManager.getAll remote this
        {| maxRecords := m; view := None; sort := s; filterByFormula := f |} w
  /\ select_view (AirtableManager.getAll_selectOptions empty) = "Grid view"
  /\ (exists n,
       1 <= n
       /\ snd (AirtableManager.getAll remote this zero w)
          = w ++ map (SelectPage (AirtableManager.table this)
                        (AirtableManager.getAll_selectOptions zero)) (seq 0 n))
  /\ (forall options,
       select_maxRecords (AirtableManager.getAll_selectOptions options)
         <> Some (Int 0)
       /\ select_view (AirtableManager.getAll_selectOptions options) <> EmptyString).
Proof.
  intros zero empty. repeat split.
  - destruct s, f as [f|]; cbn; try destruct (string_truthy f); reflexivity.
  - destruct s, f as [f|]; cbn; try destruct (string_truthy f); reflexivity.
  - apply getAll_calls.
  - apply getAll_selectOptions_truthy.
  - apply getAll_selectOptions_truthy.
Qed.

(** ** Search *)

(** C7.  When the filter mapping has a formula, [search] returns what
    [getAll] returns for that formula as [filterByFormula] with the
    same [maxRecords] and [view], and issues the same requests; when
    the formula is the empty string these requests carry no filter, as
    if [getAll] had been called without [filterByFormula]. *)
Theorem search_delegates_to_getAll (remote : Remote)
    (this : AirtableManager.Manager) (options : SearchOptions) (formula : string)
    (w : World) :
  AirtableManager.buildFilterFormula (filters options) = Normal formula ->
  let delegated := {| maxRecords := search_maxRecords options;
                      view := search_view options;
                      sort := None;
                      filterByFormula := Some formula |} in
  AirtableManager.search remote this options w
    = AirtableManager.getAll remote this delegated w
  /\ (exists n,
       1 <= n
       /\ snd (AirtableManager.search remote this options w)
          = w ++ map (SelectPage (AirtableManager.table this)
                        (AirtableManager.getAll_selectOptions delegated)) (seq 0 n))
  /\ (formula = EmptyString ->
      select_filterByFormula (AirtableManager.getAll_selectOptions delegated) = None
      /\ AirtableManager.getAll remote this delegated w
         = AirtableManager.getAll remote this
             {| maxRecords := search_maxRecords options;
                view := search_view options;
                sort := None;
                filterByFormula := None |} w).
Proof.
  intros Hformula delegated.
  assert (Hsearch : AirtableManager.search remote this options w
                    = AirtableManager.getAll remote this delegated w).
  { unfold AirtableManager.search, try_catch, await, lift. rewrite Hformula.
    fold delegated.
    destruct (getAll_returns remote this delegated w) as [r Hr].
    destruct (AirtableManager.getAll remote this delegated w) as [c w'].
    cbn in Hr. subst c. reflexivity. }
  split; [exact Hsearch|]. split.
  - rewrite Hsearch. apply getAll_calls.
  - intros ->. split; reflexivity.
Qed.

(** A mapping whose only entry is an empty string has the empty
    formula: the search of the sample store is the unfiltered listing. *)
Lemma search_delegates_to_getAll_witness :
  AirtableManager.search Fixtures.store Fixtures.manager
    {| filters := [("name", VString EmptyString)];
       search_maxRecords := Some (Int 50);
       search_view := None |} []
  = AirtableManager.getAll Fixtures.store Fixtures.manager
      {| maxRecords := Some (Int 50); view := None; sort := None;
         filterByFormula := Some EmptyString |} [].
Proof.
  exact (proj1 (search_delegates_to_getAll Fixtures.store Fixtures.manager
                  {| filters := [("name", VString EmptyString)];
                     search_maxRecords := Some (Int 50);
                     search_view := None |} [] eq_refl)).
Defined.

(** A mapping without a formula (the string conversion of one of its
    values raises) is reported by [search] itself. *)
Lemma search_without_formula (remote : Remote) (this : AirtableManager.Manager)
    (options : SearchOptions) (e : Error) (w : World) :
  AirtableManager.buildFilterFormula (filters options) = Throw e ->
  AirtableManager.search remote this options w
  = (Normal (AirtableManager.failure (message_or e "Search failed")), w).
Proof.
  intros H. unfold AirtableManager.search, try_catch, await, lift. rewrite H.
  reflexivity.
Qed.


(** ** Bulk methods *)

Section Chunks.

Context {A : Type}.

Lemma chunks_cons (a : A) (l : list A) :
  Reference.chunks (a :: l)
  = firstn AirtableManager.batchSize (a :: l)
      :: Reference.chunks (skipn AirtableManager.batchSize (a :: l)).
Proof. now simp chunks. Qed.

Lemma chunks_nil : Reference.chunks (@nil A) = [].
Proof. now simp chunks. Qed.

(** Induction along the chunks of a list. *)
Lemma chunks_induction (P : list A -> Prop) :
  P [] ->
  (forall a l, P (skipn AirtableManager.batchSize (a :: l)) -> P (a :: l)) ->
  forall l, P l.
Proof.
  intros Hnil Hcons l.
  induction l as [l IH] using (induction_ltof1 _ (@length A)).
  destruct l as [|a l]; [exact Hnil|].
  apply Hcons, IH. unfold ltof.
  rewrite length_skipn. unfold AirtableManager.batchSize. cbn [length]. lia.
Qed.

(** The chunks are a partition of the list into consecutive pieces. *)
Lemma chunks_concat (l : list A) : concat (Reference.chunks l) = l.
Proof.
  induction l as [|a l IH] using chunks_induction; [now rewrite chunks_nil|].
  rewrite chunks_cons. cbn [concat]. rewrite IH. apply firstn_skipn.
Qed.

(** No chunk is empty and none has more than [batchSize] elements. *)
Lemma chunks_sizes (l : list A) :
  Forall (fun c => 1 <= length c <= AirtableManager.batchSize) (Reference.chunks l).
Proof.
  induction l as [|a l IH] using chunks_induction.
  - rewrite chunks_nil. constructor.
  - rewrite chunks_cons. constructor; [|exact IH].
    rewrite length_firstn. unfold AirtableManager.batchSize. cbn [length]. lia.
Qed.

(** The chunks of what is left from the index [i] on: the slice the
    loop takes at [i], then the chunks from [i + batchSize] on. *)
Lemma chunks_skipn (l : list A) (i : nat) :
  i < length l ->
  Reference.chunks (skipn i l)
  = slice l i (i + AirtableManager.batchSize)
      :: Reference.chunks (skipn (i + AirtableManager.batchSize) l).
Proof.
  intros Hi. unfold slice.
  replace (i + AirtableManager.batchSize - i) with AirtableManager.batchSize by lia.
  destruct (skipn i l) as [|a rest] eqn:Hskip.
  - apply (f_equal (@length A)) in Hskip. rewrite length_skipn in Hskip.
    cbn in Hskip. lia.
  - rewrite chunks_cons, <- Hskip, skipn_skipn.
    now rewrite (Nat.add_comm AirtableManager.batchSize i).
Qed.

Lemma chunks_skipn_all (l : list A) (i : nat) :
  length l <= i -> Reference.chunks (skipn i l) = [].
Proof.
  intros Hi. rewrite skipn_all2 by exact Hi. apply chunks_nil.
Qed.

(** A list of 25 elements has three chunks, of 10, 10 and 5 elements. *)
Lemma chunks_twenty_five (l : list A) :
  length l = 25 -> map (@length A) (Reference.chunks l) = [10; 10; 5].
Proof.
  intros Hl.
  rewrite <- (skipn_O l).
  rewrite (chunks_skipn l (i := 0)) by lia.
  change (0 + AirtableManager.batchSize) with 10.
  rewrite (chunks_skipn l (i := 10)) by lia.
  change (10 + AirtableManager.batchSize) with 20.
  rewrite (chunks_skipn l (i := 20)) by lia.
  change (20 + AirtableManager.batchSize) with 30.
  rewrite chunks_skipn_all by lia.
  unfold slice, AirtableManager.batchSize. cbn [map].
  rewrite !length_firstn, !length_skipn, Hl. reflexivity.
Qed.

End Chunks.

Section Loop.

Context {A R St : Type}.
Variable l : list A.
Variable answer : World -> list A -> Completion R.
Variable issue : list A -> Call.
Variable step : St -> list A -> R -> St.
Variable body : nat -> St -> Async St.

(** The body of a bulk loop: it takes the slice at [i], submits it by
    one call, and keeps [step] of the answer. *)
Hypothesis body_submits :
  forall i s w,
    body i s w =
    let batch := slice l i (i + AirtableManager.batchSize) in
    match answer w batch with
    | Normal r => (Normal (step s batch r), w ++ [issue batch])
    | Throw e => (Throw e, w ++ [issue batch])
    end.

(** The loop submits the chunks of the list, from the index [i] on, and
    settles as the submission completes. *)
Lemma for_batches_submit :
  forall i s w,
    AirtableManager.for_batches (length l) body i s w
    = let out := Reference.submit answer issue step
                   (Reference.chunks (skipn i l)) s w in
      (Settled (fst out), snd out).
Proof.
  intros i. remember (length l - i) as n eqn:Hn. revert i Hn.
  induction n as [n IH] using lt_wf_ind. intros i Hn s w.
  simp for_batches.
  destruct (lt_dec i (length l)) as [Hlt|Hge]; simpl.
  - rewrite chunks_skipn by exact Hlt. cbn [Reference.submit].
    rewrite body_submits. cbv zeta.
    destruct (answer w (slice l i (i + AirtableManager.batchSize))) as [r|e];
      simpl; [|reflexivity].
    apply (IH (length l - (i + AirtableManager.batchSize)));
      [unfold AirtableManager.batchSize; lia|reflexivity].
  - rewrite chunks_skipn_all by lia. reflexivity.
Qed.

(** The calls of a submission are those of a prefix of the chunks, and
    of all of them when no call fails. *)
Lemma submit_calls (cs : list (list A)) :
  forall s w,
  exists k,
    k <= length cs
    /\ snd (Reference.submit answer issue step cs s w)
       = w ++ map issue (firstn k cs)
    /\ (forall s', fst (Reference.submit answer issue step cs s w) = Normal s' ->
        k = length cs).
Proof.
  induction cs as [|c cs IH]; intros s w; cbn [Reference.submit].
  - exists 0. split; [apply Nat.le_refl|]. split; [|reflexivity].
    cbn. now rewrite app_nil_r.
  - destruct (answer w c) as [r|e].
    + destruct (IH (step s c r) (w ++ [issue c])) as (k & Hk & Hcalls & Hall).
      exists (S k). split; [cbn [length]; lia|]. split.
      * rewrite Hcalls, <- app_assoc. reflexivity.
      * intros s' Hs'. cbn [length]. f_equal. now apply (Hall s').
    + exists 1. split; [cbn [length]; lia|]. split; [reflexivity|].
      intros s' Hs'. discriminate Hs'.
Qed.

(** A submission that ends normally had every chunk answered, and
    ends with what the caller kept of the answers. *)
Lemma submit_normal (cs : list (list A)) :
  forall s w s',
    fst (Reference.submit answer issue step cs s w) = Normal s' ->
    exists rs,
      Reference.answered answer issue w cs rs
      /\ s' = Reference.kept step cs rs s.
Proof.
  induction cs as [|c cs IH]; intros s w s'; cbn [Reference.submit].
  - intros [= <-]. exists []. split; [constructor|reflexivity].
  - destruct (answer w c) as [r|e] eqn:Hr; [|discriminate].
    intros H. destruct (IH _ _ _ H) as (rs & Hrs & Hs').
    exists (r :: rs). split; [now constructor|exact Hs'].
Qed.

Lemma answered_length (cs : list (list A)) (rs : list R) (w : World) :
  Reference.answered answer issue w cs rs -> length rs = length cs.
Proof. induction 1; cbn [length]; congruence. Qed.

End Loop.

Section Stopped.

Context {A R St : Type}.
Variable answer : World -> list A -> Completion R.
Variable issue : list A -> Call.
Variable step : St -> list A -> R -> St.

(** A submission that ends with an error has had the chunks before the
    failing one answered, and has issued nothing after it. *)
Lemma submit_throw (cs : list (list A)) :
  forall s w e,
    fst (Reference.submit answer issue step cs s w) = Throw e ->
    exists k,
      Delivery.stopped_at answer issue cs w k e
      /\ snd (Reference.submit answer issue step cs s w)
         = w ++ map issue (firstn (S k) cs).
Proof.
  induction cs as [|c cs IH]; intros s w e; cbn [Reference.submit].
  - discriminate.
  - destruct (answer w c) as [r|e0] eqn:Hc.
    + intros H. destruct (IH _ _ _ H) as (k & ([done Hdone] & c' & Hnth & Hfail) & Hcalls).
      exists (S k). split; [split|].
      * exists (r :: done). cbn [firstn]. now constructor.
      * exists c'. split; [exact Hnth|].
        cbn [firstn map]. now rewrite <- app_assoc in Hfail.
      * rewrite Hcalls, <- app_assoc. reflexivity.
    + intros [= ->]. exists 0. split; [split|].
      * exists []. constructor.
      * exists c. split; [reflexivity|]. cbn. now rewrite app_nil_r.
      * reflexivity.
Qed.

End Stopped.

Section Bulk.

Variable remote : Remote.
Variable this : AirtableManager.Manager.

Import AirtableManager.

Lemma map_formatRecord_map (rs : list Record_) :
  map_formatRecord rs = Normal (map format rs).
Proof.
  induction rs as [|r rs IH]; [reflexivity|].
  cbn [map_formatRecord formatRecord Js.bind map]. now rewrite IH.
Qed.

Lemma bulkCreate_submits (input : BulkCreateInput) (w : World) :
  bulkCreate remote this input w =
  let out := Reference.submit (fun w => on_create remote w (table this))
               (CreateCall (table this)) Reference.keep_formatted
               (Reference.chunks (records input)) [] w in
  (Normal match fst out with
          | Normal results =>
              {| success := true; data := Some (Many results);
                 Types.count := Some (length results); nextOffset := None;
                 message := None; deletedCount := None; Types.exists_ := None;
                 error := None |}
          | Throw e => failure (message_or e "Bulk create failed")
          end, snd out).
Proof.
  unfold bulkCreate. rewrite try_await_ret.
  rewrite (for_batches_submit (records input)
             (fun w => on_create remote w (table this))
             (CreateCall (table this)) Reference.keep_formatted).
  - cbv zeta. cbn [fst snd]. change (skipn 0 ?l) with l.
    destruct (fst (Reference.submit _ _ _ _ _ _)); reflexivity.
  - intros i s w0. unfold await, Airtable.create, lift, ret. cbv zeta.
    destruct (on_create remote w0 (table this) _) as [rs|e]; [|reflexivity].
    now rewrite map_formatRecord_map.
Qed.

Lemma bulkUpdate_submits (input : BulkUpdateInput) (w : World) :
  bulkUpdate remote this input w =
  let out := Reference.submit (fun w => on_update remote w (table this))
               (UpdateCall (table this)) Reference.keep_formatted
               (Reference.chunks (update_records input)) [] w in
  (Normal match fst out with
          | Normal results =>
              {| success := true; data := Some (Many results);
                 Types.count := Some (length results); nextOffset := None;
                 message := None; deletedCount := None; Types.exists_ := None;
                 error := None |}
          | Throw e => failure (message_or e "Bulk update failed")
          end, snd out).
Proof.
  unfold bulkUpdate. rewrite try_await_ret.
  rewrite (for_batches_submit (update_records input)
             (fun w => on_update remote w (table this))
             (UpdateCall (table this)) Reference.keep_formatted).
  - cbv zeta. cbn [fst snd]. change (skipn 0 ?l) with l.
    destruct (fst (Reference.submit _ _ _ _ _ _)); reflexivity.
  - intros i s w0. unfold await, Airtable.update, lift, ret. cbv zeta.
    destruct (on_update remote w0 (table this) _) as [rs|e]; [|reflexivity].
    now rewrite map_formatRecord_map.
Qed.

Lemma bulkDelete_submits (input : BulkDeleteInput) (w : World) :
  bulkDelete remote this input w =
  let out := Reference.submit (fun w => on_destroy remote w (table this))
               (DestroyCall (table this)) Reference.keep_count
               (Reference.chunks (ids input)) 0 w in
  (Normal match fst out with
          | Normal deleted =>
              {| success := true; data := None; Types.count := None; nextOffset := None;
                 message :=
                   Some (template [number_to_string (Int (Z.of_nat deleted));
                                   " records deleted successfully"]);
                 deletedCount := Some deleted; Types.exists_ := None;
                 error := None |}
          | Throw e => failure (message_or e "Bulk delete failed")
          end, snd out).
Proof.
  unfold bulkDelete. rewrite try_await_ret.
  rewrite (for_batches_submit (ids input)
             (fun w => on_destroy remote w (table this))
             (DestroyCall (table this)) Reference.keep_count).
  - cbv zeta. cbn [fst snd]. change (skipn 0 ?l) with l.
    destruct (fst (Reference.submit _ _ _ _ _ _)); reflexivity.
  - intros i s w0. unfold await, destroy, ret. cbv zeta.
    destruct (on_destroy remote w0 (table this) _) as [rs|e]; reflexivity.
Qed.

End Bulk.

Section Kept.

Context {A : Type}.
Variable answer : World -> list A -> Completion (list Record_).
Variable issue : list A -> Call.

Lemma kept_formatted (w : World) (cs : list (list A)) (rs : list (list Record_)) :
  Reference.answered answer issue w cs rs ->
  forall results,
    Reference.kept Reference.keep_formatted cs rs results
    = results ++ map AirtableManager.format (concat rs).
Proof.
  unfold Reference.kept.
  induction 1 as [w|w c cs r rs Hr Hrs IH]; intros results; cbn.
  - now rewrite app_nil_r.
  - rewrite IH. unfold Reference.keep_formatted.
    now rewrite map_app, app_assoc.
Qed.

(** A store that answers with one record for each one submitted
    answers a sequence of chunks with as many records as they hold. *)
Lemma answered_sizes (w : World) (cs : list (list A)) (rs : list (list Record_)) :
  (forall w c r, answer w c = Normal r -> length r = length c) ->
  Reference.answered answer issue w cs rs ->
  length (concat rs) = length (concat cs).
Proof.
  intros Hone. induction 1 as [w|w c cs r rs Hr Hrs IH]; [reflexivity|].
  cbn [concat]. rewrite !length_app, IH. f_equal. exact (Hone _ _ _ Hr).
Qed.

End Kept.

Lemma kept_count (answer : World -> list string -> Completion (list Record_))
    (issue : list string -> Call) (w : World) (cs : list (list string))
    (rs : list (list Record_)) :
  Reference.answered answer issue w cs rs ->
  forall deleted,
    Reference.kept Reference.keep_count cs rs deleted
    = deleted + length (concat cs).
Proof.
  unfold Reference.kept.
  induction 1 as [w|w c cs r rs Hr Hrs IH]; intros deleted; cbn.
  - lia.
  - rewrite IH. unfold Reference.keep_count. rewrite length_app. lia.
Qed.

(** The calls of a bulk method, from those of the submission it is. *)
(** A bulk method issues the calls of the submission it is, and returns
    as the submission completes. *)
Lemma submit_submitted {A R St} (answer : World -> list A -> Completion R)
    (issue : list A -> Call) (step : St -> list A -> R -> St) (l : list A)
    (s : St) (w : World) (reply : St -> Response) (fallback : string) :
  (forall s', success (reply s') = true) ->
  let out := Reference.submit answer issue step (Reference.chunks l) s w in
  Delivery.submitted answer issue fallback l
    (Normal match fst out with
            | Normal s' => reply s'
            | Throw e => AirtableManager.failure (message_or e fallback)
            end, snd out) w.
Proof.
  intros Hreply out. destruct (fst out) as [s'|e] eqn:Hout.
  - left. destruct (submit_normal _ _ _ _ _ _ Hout) as (rs & Hrs & _).
    destruct (submit_calls answer issue step (Reference.chunks l) s w)
      as (k & _ & Hcalls & Hall).
    exists rs. split; [exact Hrs|]. split; [apply Hreply|].
    cbn [snd]. fold out in Hcalls, Hall.
    rewrite Hcalls, (Hall s' Hout), firstn_all. reflexivity.
  - right. destruct (submit_throw _ _ _ _ _ _ Hout) as (k & Hstopped & Hcalls).
    exists k, e. split; [exact Hstopped|]. fold out in Hcalls.
    now rewrite Hcalls.
Qed.

Lemma submit_chunked {A R St} (answer : World -> list A -> Completion R)
    (issue : list A -> Call) (step : St -> list A -> R -> St) (l : list A)
    (s : St) (w : World) (reply : St -> Response) (text : Error -> string) :
  let out := Reference.submit answer issue step (Reference.chunks l) s w in
  Reference.chunked issue l
    (Normal match fst out with
            | Normal s' => reply s'
            | Throw e => AirtableManager.failure (text e)
            end, snd out) w.
Proof.
  intros out.
  destruct (submit_calls answer issue step (Reference.chunks l) s w)
    as (k & Hk & Hcalls & Hall).
  exists k. split; [exact Hk|]. split; [exact Hcalls|].
  unfold Reference.succeeded. cbn [fst]. fold out in Hall.
  destruct (fst out) as [s'|e]; [intros _; now apply (Hall s')|discriminate].
Qed.

Lemma bulkCreate_chunked (remote : Remote) (this : AirtableManager.Manager)
    (input : BulkCreateInput) (w : World) :
  Reference.chunked (CreateCall (AirtableManager.table this)) (records input)
    (AirtableManager.bulkCreate remote this input w) w.
Proof. rewrite bulkCreate_submits. apply submit_chunked. Qed.

(** C2, as stated, fails when a call fails: on 25 records and a store
    that is down, [bulkCreate] issues the call for the first chunk and
    no other, where the list has three chunks. *)
Lemma bulkCreate_stops_at_first_failure :
  snd (AirtableManager.bulkCreate Fixtures.down Fixtures.manager
         Fixtures.twenty_five [])
    = [CreateCall (AirtableManager.table Fixtures.manager)
         (firstn 10 (records Fixtures.twenty_five))]
  /\ length (Reference.chunks (records Fixtures.twenty_five)) = 3
  /\ fst (AirtableManager.bulkCreate Fixtures.down Fixtures.manager
            Fixtures.twenty_five [])
     = Normal (AirtableManager.failure "Service unavailable").
Proof. repeat split. Qed.

(** C2, amended.  [bulkCreate], [bulkUpdate] and [bulkDelete] cut their
    list into consecutive chunks of at most 10 elements and issue one
    call for each chunk, in the order of the list and one after the
    other, up to and including the first call that fails.  So either
    the calls for all the chunks were issued and answered and the
    method succeeded; or the calls before some chunk were answered, the
    call for that chunk failed and was the last one issued, and the
    method returned a failure envelope with the message of that error.
    A [bulkCreate] that succeeds returns the records answered to its
    chunks, concatenated in that order, with their number as [count];
    that number is the length of the input when the store answers each
    call with one record for each one submitted.  On 25 records a
    [bulkCreate] that succeeds has issued exactly 3 calls, of 10, 10
    and 5 records, and then returns 25 records with [count] 25. *)
Theorem bulk_methods_submit_chunks (remote : Remote)
    (this : AirtableManager.Manager) (w : World) :
  (forall input,
      Delivery.submitted
        (fun w => on_create remote w (AirtableManager.table this))
        (CreateCall (AirtableManager.table this)) "Bulk create failed"
        (records input)
        (AirtableManager.bulkCreate remote this input w) w)
  /\ (forall input,
      Delivery.submitted
        (fun w => on_update remote w (AirtableManager.table this))
        (UpdateCall (AirtableManager.table this)) "Bulk update failed"
        (update_records input)
        (AirtableManager.bulkUpdate remote this input w) w)
  /\ (forall input,
      Delivery.submitted
        (fun w => on_destroy remote w (AirtableManager.table this))
        (DestroyCall (AirtableManager.table this)) "Bulk delete failed"
        (ids input)
        (AirtableManager.bulkDelete remote this input w) w)
  /\ (forall input r,
      fst (AirtableManager.bulkCreate remote this input w) = Normal r ->
      success r = true ->
      exists results,
        Reference.answered
          (fun w => on_create remote w (AirtableManager.table this))
          (CreateCall (AirtableManager.table this)) w
          (Reference.chunks (records input)) results
        /\ data r = Some (Many (map AirtableManager.format (concat results)))
        /\ count r = Some (length (concat results))
        /\ ((forall w' batch rs,
               on_create remote w' (AirtableManager.table this) batch = Normal rs ->
               length rs = length batch) ->
            length (concat results) = length (records input)))
  /\ (forall input r,
      length (records input) = 25 ->
      fst (AirtableManager.bulkCreate remote this input w) = Normal r ->
      success r = true ->
      snd (AirtableManager.bulkCreate remote this input w)
        = w ++ map (CreateCall (AirtableManager.table this))
                   (Reference.chunks (records input))
      /\ map (@length CreateRecordInput) (Reference.chunks (records input))
         = [10; 10; 5]
      /\ ((forall w' batch rs,
             on_create remote w' (AirtableManager.table this) batch = Normal rs ->
             length rs = length batch) ->
          count r = Some 25
          /\ exists rs, data r = Some (Many rs) /\ length rs = 25))
  /\ (forall (A : Type) (l : list A),
      concat (Reference.chunks l) = l
      /\ Forall (fun c => 1 <= length c <= AirtableManager.batchSize)
           (Reference.chunks l)).
Proof.
  assert (Hcreate : forall input r,
      fst (AirtableManager.bulkCreate remote this input w) = Normal r ->
      success r = true ->
      exists results,
        Reference.answered
          (fun w => on_create remote w (AirtableManager.table this))
          (CreateCall (AirtableManager.table this)) w
          (Reference.chunks (records input)) results
        /\ data r = Some (Many (map AirtableManager.format (concat results)))
        /\ count r = Some (length (concat results))
        /\ ((forall w' batch rs,
               on_create remote w' (AirtableManager.table this) batch = Normal rs ->
               length rs = length batch) ->
            length (concat results) = length (records input))).
  { intros input r. rewrite bulkCreate_submits. cbv zeta. cbn [fst].
    destruct (fst (Reference.submit _ _ _ _ _ _)) as [results|e] eqn:Hsubmit;
      intros [= <-]; [intros _|discriminate].
    destruct (submit_normal _ _ _ _ _ _ Hsubmit) as (rs & Hrs & ->).
    exists rs. rewrite (kept_formatted Hrs). cbn [app data count].
    split; [exact Hrs|]. split; [reflexivity|].
    split; [now rewrite length_map|].
    intros Hone. rewrite (answered_sizes (fun w c r => Hone w c r) Hrs).
    now rewrite chunks_concat. }
  split; [|split; [|split; [|split; [exact Hcreate|split]]]].
  - intros input. rewrite bulkCreate_submits. now apply submit_submitted.
  - intros input. rewrite bulkUpdate_submits. now apply submit_submitted.
  - intros input. rewrite bulkDelete_submits. now apply submit_submitted.
  - intros input r Hlen Hr Hsuccess.
    split; [|split; [now apply chunks_twenty_five|]].
    + destruct (bulkCreate_chunked remote this input w) as (k & _ & Hcalls & Hall).
      rewrite Hcalls, Hall, firstn_all; [reflexivity|].
      unfold Reference.succeeded. now rewrite Hr.
    + intros Hone.
      destruct (Hcreate input r Hr Hsuccess) as (rs & _ & Hdata & Hcount & Hsize).
      rewrite Hcount, Hdata, (Hsize Hone), Hlen. split; [reflexivity|].
      eexists. split; [reflexivity|].
      now rewrite length_map, (Hsize Hone).
  - intros A l. split; [apply chunks_concat|apply chunks_sizes].
Qed.

(** The sample store answers every chunk of 25 records: [bulkCreate]
    returns 25 records after 3 calls. *)
Lemma bulk_methods_submit_chunks_witness :
  fst (AirtableManager.bulkCreate Fixtures.store Fixtures.manager
         Fixtures.twenty_five []) = Normal Fixtures.created_twenty_five
  /\ count Fixtures.created_twenty_five = Some 25
  /\ exists rs,
       data Fixtures.created_twenty_five = Some (Many rs) /\ length rs = 25.
Proof.
  split; [reflexivity|].
  refine (proj2 (proj2
            (proj1 (proj2 (proj2 (proj2 (proj2
               (bulk_methods_submit_chunks Fixtures.store Fixtures.manager [])))))
               Fixtures.twenty_five Fixtures.created_twenty_five
               eq_refl eq_refl eq_refl)) _).
  intros w' batch rs [= <-]. apply length_map.
Defined.


(** C10.  A [bulkDelete] that succeeds reports as [deletedCount] the
    length of the list of identifiers it was given, which is the sum of
    the sizes of the chunks, whatever the remote store answered to the
    calls; its message is that count followed by
    " records deleted successfully". *)
Theorem bulkDelete_counts_its_input (remote : Remote)
    (this : AirtableManager.Manager) (input : BulkDeleteInput) (w : World)
    (r : Response) :
  fst (AirtableManager.bulkDelete remote this input w) = Normal r ->
  success r = true ->
  deletedCount r = Some (length (ids input))
  /\ length (ids input)
     = list_sum (map (@length string) (Reference.chunks (ids input)))
  /\ message r
     = Some (number_to_string (Int (Z.of_nat (length (ids input))))
             ++ " records deleted successfully")%string.
Proof.
  rewrite bulkDelete_submits. cbv zeta. cbn [fst].
  destruct (fst (Reference.submit _ _ _ _ _ _)) as [deleted|e] eqn:Hsubmit;
    intros [= <-]; [intros _|discriminate].
  destruct (submit_normal _ _ _ _ _ _ Hsubmit) as (rs & Hrs & ->).
  rewrite (kept_count Hrs), chunks_concat. cbn [deletedCount message Nat.add].
  split; [reflexivity|]. split; [|reflexivity].
  rewrite <- length_concat. now rewrite chunks_concat.
Qed.

(** Twelve identifiers, deleted from the sample store in two calls. *)
Lemma bulkDelete_counts_its_input_witness :
  fst (AirtableManager.bulkDelete Fixtures.store Fixtures.manager
         Fixtures.twelve []) = Normal Fixtures.deleted_twelve
  /\ deletedCount Fixtures.deleted_twelve = Some 12
  /\ message Fixtures.deleted_twelve = Some "12 records deleted successfully".
Proof.
  split; [reflexivity|].
  destruct (bulkDelete_counts_its_input Fixtures.store Fixtures.manager
              Fixtures.twelve [] (r := Fixtures.deleted_twelve) eq_refl eq_refl)
    as (Hcount & _ & Hmessage).
  split; [exact Hcount|exact Hmessage].
Defined.

(** ** Pagination *)

Section Pagination.

Variable remote : Remote.
Variable this : AirtableManager.Manager.

Import AirtableManager.

(** The callback of [getPaginated] on the first page. *)
Lemma getPaginated_callback_first (pageSize : number) (page : list Record_) :
  getPaginated_callback pageSize page ([], None) =
  if length_is (length page) pageSize then
    match nth_error page (length page - 1) with
    | Some last => Normal ((map format page, Some (record_id last)), false)
    | None => Throw (TypeError_undefined "id")
    end
  else Normal ((map format page, None), false).
Proof.
  unfold getPaginated_callback. rewrite forEach_push_formatted. cbn [Js.bind app].
  destruct (length_is (length page) pageSize); [|reflexivity].
  destruct (nth_error page (length page - 1)); reflexivity.
Qed.

(** The callback never calls [fetchNextPage]: on a page it leaves the
    promise of [eachPage] pending. *)
Lemma eachPage_from_getPaginated (t : Table) (o : SelectOptions) (pages : Pages)
    (pageSize : number) (w : World) :
  eachPage_from t o pages 0 (getPaginated_callback pageSize) ([], None) w
  = (match pages with
     | PageError e => Settled (Throw e)
     | LastPage page | MorePages page _ =>
         Pending match getPaginated_callback pageSize page ([], None) with
                 | Normal _ => None
                 | Throw e => Some e
                 end
     end, w ++ [SelectPage t o 0]).
Proof.
  destruct pages as [e|page|page rest]; cbn [eachPage_from]; [reflexivity| |];
    rewrite getPaginated_callback_first;
    destruct (length_is (length page) pageSize);
    try destruct (nth_error page (length page - 1)); reflexivity.
Qed.

(** The query of [getPaginated] carries the offset it is given, unless
    that is the empty string. *)
Lemma getPaginated_selectOptions_offset (pageSize : number) (offset : option string) :
  select_offset (getPaginated_selectOptions pageSize offset)
  = match offset with
    | Some f => if string_truthy f then Some f else None
    | None => None
    end.
Proof.
  unfold getPaginated_selectOptions.
  destruct offset as [f|]; [destruct (string_truthy f)|]; reflexivity.
Qed.

(** How [getPaginated] ends: refused with its offset before any
    request; or rejected with its one request; or pending for ever
    once the page is delivered. *)
Lemma getPaginated_ends (pageSize : option number) (offset : option string)
    (w : World) :
  let size := pageSize_or_default pageSize in
  let query := getPaginated_selectOptions size offset in
  getPaginated remote this pageSize offset w
  = match select_offset query with
    | Some _ =>
        (Settled (Normal (failure (message_or invalid_select_parameters
                                     "Failed to fetch paginated records"))), w)
    | None =>
        (match on_select remote w (table this) query with
         | PageError e =>
             Settled (Normal (failure (message_or e
                                         "Failed to fetch paginated records")))
         | LastPage page | MorePages page _ =>
             Pending match getPaginated_callback size page ([], None) with
                     | Normal _ => None
                     | Throw e => Some e
                     end
         end, w ++ [SelectPage (table this) query 0])
    end.
Proof.
  intros size query. unfold getPaginated. rewrite try_await_ret.
  fold size. fold query.
  destruct (select_offset query) as [f|] eqn:Hoffset.
  - erewrite select_eachPage_refused by exact Hoffset. reflexivity.
  - rewrite select_eachPage_valid by exact Hoffset.
    rewrite eachPage_from_getPaginated.
    destruct (on_select remote w (table this) query); reflexivity.
Qed.

End Pagination.

(** C5.  [getPaginated] never returns a page.  When its first page is
    delivered, the callback it hands to [eachPage] has computed the
    records and the next offset, but returns without calling
    [fetchNextPage], which alone would settle the promise it awaits:
    the call stays pending after its one request, and no envelope is
    returned.  The only envelopes it returns are failures: when the
    request fails, and, before any request, when it is given an offset,
    a string that the package refuses. *)
Theorem getPaginated_never_returns_a_page (remote : Remote)
    (this : AirtableManager.Manager) (pageSize : option number)
    (offset : option string) (w : World) :
  let size := AirtableManager.pageSize_or_default pageSize in
  let query := AirtableManager.getPaginated_selectOptions size offset in
  (forall r,
      fst (AirtableManager.getPaginated remote this pageSize offset w) = Normal r ->
      success r = false /\ nextOffset r = None /\ data r = None)
  /\ (forall page,
      select_offset query = None ->
      Reference.first_page (on_select remote w (AirtableManager.table this) query)
        = Some page ->
      exists unhandled,
        AirtableManager.getPaginated remote this pageSize offset w
        = (Pending unhandled, w ++ [SelectPage (AirtableManager.table this) query 0]))
  /\ (forall f,
      select_offset query = Some f ->
      exists text,
        AirtableManager.getPaginated remote this pageSize offset w
        = (Normal (AirtableManager.failure text), w)).
Proof.
  intros size query. rewrite getPaginated_ends. fold size. fold query.
  split; [|split].
  - intros r. destruct (select_offset query) as [f|]; cbn [fst].
    + intros [= <-]. repeat split.
    + destruct (on_select remote w (AirtableManager.table this) query);
        intros [= <-]; repeat split.
  - intros page -> Hpage.
    destruct (on_select remote w (AirtableManager.table this) query)
      as [e|p|p rest]; cbn in Hpage; try discriminate;
      injection Hpage as ->; eexists; reflexivity.
  - intros f ->. eexists. reflexivity.
Qed.

(** The sample store delivers a first page of two records: with a page
    size of 2 the call stays pending after its request, and with an
    offset it fails before any request. *)
Lemma getPaginated_never_returns_a_page_witness :
  (exists unhandled,
      AirtableManager.getPaginated Fixtures.store Fixtures.manager
        (Some (Int 2)) None []
      = (Pending unhandled,
         [] ++ [SelectPage (AirtableManager.table Fixtures.manager)
                  (AirtableManager.getPaginated_selectOptions (Int 2) None) 0]))
  /\ (exists text,
      AirtableManager.getPaginated Fixtures.store Fixtures.manager
        (Some (Int 2)) (Some "rec2") []
      = (Normal (AirtableManager.failure text), [])).
Proof.
  split.
  - exact (proj1 (proj2 (getPaginated_never_returns_a_page Fixtures.store
                           Fixtures.manager (Some (Int 2)) None []))
             [Fixtures.stored "rec1" []; Fixtures.stored "rec2" []]
             eq_refl eq_refl).
  - exact (proj2 (proj2 (getPaginated_never_returns_a_page Fixtures.store
                           Fixtures.manager (Some (Int 2)) (Some "rec2") []))
             "rec2" eq_refl).
Defined.

(** ** Response envelopes *)

Section Envelopes.

Variable remote : Remote.
Variable this : AirtableManager.Manager.

Import AirtableManager.

Lemma failure_well_formed (text : string) :
  Reference.well_formed (failure text) = true.
Proof. reflexivity. Qed.

Lemma create_answers input : Reference.answers (create remote this input).
Proof.
  intros w. unfold create, try_catch, await, Airtable.create, lift, ret.
  destruct (on_create remote w (table this) [input]) as [[|r rest]|e];
    cbn; do 2 eexists; split; reflexivity.
Qed.

Lemma getAll_answers options : Reference.answers (getAll remote this options).
Proof.
  intros w. rewrite getAll_reads_all_pages. cbv zeta.
  destruct (Delivery.failure_of _); do 2 eexists; split; reflexivity.
Qed.

Lemma getById_answers id : Reference.answers (getById remote this id).
Proof.
  intros w. unfold getById, try_catch, await, find, lift, ret.
  destruct (on_find remote w (table this) id) as [r|e];
    cbn; do 2 eexists; split; reflexivity.
Qed.

Lemma search_answers options : Reference.answers (search remote this options).
Proof.
  intros w. unfold search, try_catch, await, lift.
  destruct (buildFilterFormula (filters options)) as [formula|e].
  - match goal with |- context [getAll remote this ?o w] =>
      destruct (getAll_answers o w) as (r & w' & Hr & Hwf) end.
    rewrite Hr. now exists r, w'.
  - do 2 eexists. split; reflexivity.
Qed.

Lemma update_answers input : Reference.answers (update remote this input).
Proof.
  intros w. unfold update, try_catch, await, Airtable.update, lift, ret.
  destruct (on_update remote w (table this) _) as [[|r rest]|e];
    cbn; do 2 eexists; split; reflexivity.
Qed.

Lemma delete_answers id : Reference.answers (delete remote this id).
Proof.
  intros w. unfold delete, try_catch, await, destroy, ret.
  destruct (on_destroy remote w (table this) [id]) as [r|e];
    cbn; do 2 eexists; split; reflexivity.
Qed.

Lemma bulkCreate_answers input : Reference.answers (bulkCreate remote this input).
Proof.
  intros w. rewrite bulkCreate_submits. cbv zeta.
  destruct (fst (Reference.submit _ _ _ _ _ _)); do 2 eexists; split; reflexivity.
Qed.

Lemma bulkUpdate_answers input : Reference.answers (bulkUpdate remote this input).
Proof.
  intros w. rewrite bulkUpdate_submits. cbv zeta.
  destruct (fst (Reference.submit _ _ _ _ _ _)); do 2 eexists; split; reflexivity.
Qed.

Lemma bulkDelete_answers input : Reference.answers (bulkDelete remote this input).
Proof.
  intros w. rewrite bulkDelete_submits. cbv zeta.
  destruct (fst (Reference.submit _ _ _ _ _ _)); do 2 eexists; split; reflexivity.
Qed.

Lemma count_answers filterByFormula : Reference.answers (count remote this filterByFormula).
Proof.
  intros w. rewrite count_reads_all_pages. cbv zeta.
  destruct (Delivery.failure_of _); do 2 eexists; split; reflexivity.
Qed.

Lemma exists_answers id : Reference.answers (exists_ remote this id).
Proof.
  intros w. unfold exists_, try_catch, await, find, ret.
  destruct (on_find remote w (table this) id) as [r|e]; cbn;
    [|destruct (is_404 e)]; do 2 eexists; split; reflexivity.
Qed.

Lemma fulfilled_answers (m : Async Response) (w : World) :
  Reference.answers m ->
  exists r, fst (fst (fulfilled this m w)) = Normal (Envelope r)
            /\ Reference.well_formed r = true.
Proof.
  intros H. destruct (H w) as (r & w' & Hr & Hwf). unfold fulfilled.
  rewrite Hr. exists r. now split.
Qed.

End Envelopes.

(** C6, as stated, fails on [getConfig]: it returns the configuration,
    which is no response envelope. *)
Lemma getConfig_returns_no_envelope :
  fst (fst (AirtableManager.call Fixtures.store AirtableManager.GetConfig
              Fixtures.manager []))
    = Normal (AirtableManager.Config
                {| apiKey := "key"; baseId := "app1"; tableName := "Orders" |})
  /\ ~ (exists r,
          fst (fst (AirtableManager.call Fixtures.store AirtableManager.GetConfig
                      Fixtures.manager []))
            = Normal (AirtableManager.Envelope r)
          /\ Reference.well_formed r = true).
Proof.
  split; [reflexivity|]. intros [r [H _]]. discriminate H.
Qed.

(** C6, amended.  No call of an operation other than [getPaginated]
    raises, and each of them returns.  [create], [getAll], [getById],
    [search], [update], [delete], [bulkCreate], [bulkUpdate],
    [bulkDelete], [count] and [exists] return a response envelope in
    which exactly one case is populated: with [success: true] it has a
    payload and no error, with [success: false] it has an error text
    and no payload.  [getConfig] returns the configuration and
    [switchTable] returns nothing. *)
Theorem every_call_returns (remote : Remote) (op : AirtableManager.Operation)
    (this : AirtableManager.Manager) (w : World) :
  (forall pageSize offset, op <> AirtableManager.GetPaginated pageSize offset) ->
  Delivery.well_returned op (fst (fst (AirtableManager.call remote op this w))).
Proof.
  intros Hop.
  destruct op as [input|options|i|options|input|i|input|input|input
                  |pageSize offset|filterByFormula|i| |name];
    cbn [AirtableManager.call fst];
    try reflexivity; try (eexists; reflexivity);
    try (now contradiction (Hop pageSize offset));
    match goal with
    | |- context [AirtableManager.fulfilled this ?m w] =>
        let H := fresh in
        assert (H : Reference.answers m);
          [|destruct (fulfilled_answers this w H) as [r [-> Hwf]];
            split; [exact Hwf|split; [discriminate|discriminate]]]
    end.
  - apply create_answers.
  - apply getAll_answers.
  - apply getById_answers.
  - apply search_answers.
  - apply update_answers.
  - apply delete_answers.
  - apply bulkCreate_answers.
  - apply bulkUpdate_answers.
  - apply bulkDelete_answers.
  - apply count_answers.
  - apply exists_answers.
Qed.

(** A fetch from the sample store, a listing of it, and a change of
    table. *)
Lemma every_call_returns_witness :
  Delivery.well_returned (AirtableManager.GetById "rec1")
    (fst (fst (AirtableManager.call Fixtures.store
                 (AirtableManager.GetById "rec1") Fixtures.manager [])))
  /\ Delivery.well_returned (AirtableManager.GetAll None)
       (fst (fst (AirtableManager.call Fixtures.down
                    (AirtableManager.GetAll None) Fixtures.manager [])))
  /\ Delivery.well_returned (AirtableManager.SwitchTable "Customers")
       (fst (fst (AirtableManager.call Fixtures.store
                    (AirtableManager.SwitchTable "Customers")
                    Fixtures.manager []))).
Proof.
  split; [|split]; apply every_call_returns; intros; discriminate.
Defined.

(** * Further properties of the class *)

(** ** Listing and counting *)


(** X1.  [getAll] reads the pages of its query to their end, one
    request for each page in turn.  When no request fails it returns
    the records of all the pages, formatted and in their order, with
    their number as [count]; when a request fails it returns a failure
    envelope with the message of that error (or its fallback text) and
    none of the records read before. *)
Theorem getAll_concatenates_pages (remote : Remote)
    (this : AirtableManager.Manager) (options : GetAllRecordsOptions) (w : World) :
  let query := AirtableManager.getAll_selectOptions options in
  let pages := on_select remote w (AirtableManager.table this) query in
  snd (AirtableManager.getAll remote this options w)
    = w ++ map (SelectPage (AirtableManager.table this) query)
               (seq 0 (Delivery.requests_of pages))
  /\ (Delivery.failure_of pages = None ->
      fst (AirtableManager.getAll remote this options w)
        = Normal (Delivery.listing
                    (map AirtableManager.format (Delivery.records_of pages))))
  /\ (forall e,
      Delivery.failure_of pages = Some e ->
      fst (AirtableManager.getAll remote this options w)
        = Normal (AirtableManager.failure (message_or e "Failed to fetch records"))).
Proof.
  intros query pages. rewrite getAll_reads_all_pages. fold query. fold pages.
  cbn [fst snd]. split; [reflexivity|]. split.
  - intros ->. reflexivity.
  - intros e ->. reflexivity.
Qed.

(** The sample store delivers two pages of two records: [getAll]
    returns the four of them after two requests. *)
Lemma getAll_concatenates_pages_witness :
  fst (AirtableManager.getAll Fixtures.store Fixtures.manager
         AirtableManager.no_options [])
  = Normal (Delivery.listing
              (map AirtableManager.format
                 [Fixtures.stored "rec1" []; Fixtures.stored "rec2" [];
                  Fixtures.stored "rec3" []; Fixtures.stored "rec4" []])).
Proof.
  exact (proj1 (proj2 (getAll_concatenates_pages Fixtures.store Fixtures.manager
                         AirtableManager.no_options [])) eq_refl).
Defined.

(** X2.  [count] reads the pages of its query to their end, one request
    for each page, and reports the total number of their records; a
    failed request makes it a failure envelope.  Its query asks for no
    field and puts no cap on the number of records. *)
Theorem count_totals_pages (remote : Remote) (this : AirtableManager.Manager)
    (filterByFormula : option string) (w : World) :
  let query := AirtableManager.count_selectOptions filterByFormula in
  let pages := on_select remote w (AirtableManager.table this) query in
  snd (AirtableManager.count remote this filterByFormula w)
    = w ++ map (SelectPage (AirtableManager.table this) query)
               (seq 0 (Delivery.requests_of pages))
  /\ select_fields query = Some []
  /\ select_maxRecords query = None
  /\ (Delivery.failure_of pages = None ->
      fst (AirtableManager.count remote this filterByFormula w)
        = Normal (Delivery.counted (length (Delivery.records_of pages))))
  /\ (forall e,
      Delivery.failure_of pages = Some e ->
      fst (AirtableManager.count remote this filterByFormula w)
        = Normal (AirtableManager.failure
                    (message_or e "Failed to count records"))).
Proof.
  intros query pages. rewrite count_reads_all_pages. fold query. fold pages.
  cbn [fst snd]. split; [reflexivity|].
  split; [|split; [|split]].
  - subst query. unfold AirtableManager.count_selectOptions.
    destruct filterByFormula as [f|]; [destruct (string_truthy f)|]; reflexivity.
  - subst query. unfold AirtableManager.count_selectOptions.
    destruct filterByFormula as [f|]; [destruct (string_truthy f)|]; reflexivity.
  - intros ->. reflexivity.
  - intros e ->. reflexivity.
Qed.

(** The sample store holds four records in two pages. *)
Lemma count_totals_pages_witness :
  fst (AirtableManager.count Fixtures.store Fixtures.manager None [])
  = Normal (Delivery.counted 4).
Proof.
  exact (proj1 (proj2 (proj2 (proj2
           (count_totals_pages Fixtures.store Fixtures.manager None [])))) eq_refl).
Defined.

(** X3.  When the remote store delivers the same pages to the query of
    [count] and to the query of [getAll], the two methods succeed or
    fail together, and the count [count] reports is the [count] of
    [getAll], the number of records in its [data]. *)
Theorem count_matches_getAll (remote : Remote) (this : AirtableManager.Manager)
    (filterByFormula : option string) (options : GetAllRecordsOptions)
    (w : World) :
  on_select remote w (AirtableManager.table this)
    (AirtableManager.count_selectOptions filterByFormula)
  = on_select remote w (AirtableManager.table this)
      (AirtableManager.getAll_selectOptions options) ->
  exists counted listed,
    fst (AirtableManager.count remote this filterByFormula w) = Normal counted
    /\ fst (AirtableManager.getAll remote this options w) = Normal listed
    /\ success counted = success listed
    /\ count counted = count listed
    /\ (success listed = true ->
        exists rs, data listed = Some (Many rs) /\ count counted = Some (length rs)).
Proof.
  intros Hsame. rewrite count_reads_all_pages, getAll_reads_all_pages.
  cbv zeta. rewrite Hsame. cbn [fst].
  destruct (Delivery.failure_of _) as [e|].
  - do 2 eexists. repeat split. discriminate.
  - do 2 eexists. split; [reflexivity|]. split; [reflexivity|].
    split; [reflexivity|]. split; [cbn; now rewrite length_map|].
    intros _. eexists. split; [reflexivity|]. cbn. now rewrite length_map.
Qed.

(** The sample store delivers the same pages to every query. *)
Lemma count_matches_getAll_witness :
  exists counted listed,
    fst (AirtableManager.count Fixtures.store Fixtures.manager None [])
      = Normal counted
    /\ fst (AirtableManager.getAll Fixtures.store Fixtures.manager
              AirtableManager.no_options []) = Normal listed
    /\ success counted = success listed
    /\ count counted = count listed
    /\ (success listed = true ->
        exists rs, data listed = Some (Many rs) /\ count counted = Some (length rs)).
Proof.
  exact (count_matches_getAll Fixtures.store Fixtures.manager None
           AirtableManager.no_options [] eq_refl).
Defined.

(** ** Records one at a time *)

(** X4.  [create] and [update] issue one call, for a batch of exactly
    the one record they are given, and return the first record of the
    answer, formatted.  An answer that holds no record makes them a
    failure envelope, and so does an error of the call; [create]
    reports the message of that error as it is, also for status 404. *)
Theorem create_and_update_return_first_record (remote : Remote)
    (this : AirtableManager.Manager) (w : World) :
  (forall input,
      snd (AirtableManager.create remote this input w)
        = w ++ [CreateCall (AirtableManager.table this) [input]]
      /\ match on_create remote w (AirtableManager.table this) [input] with
         | Normal (r :: _) =>
             fst (AirtableManager.create remote this input w)
               = Normal (Delivery.single (AirtableManager.format r))
         | Normal [] =>
             exists text,
               fst (AirtableManager.create remote this input w)
                 = Normal (AirtableManager.failure text)
         | Throw e =>
             fst (AirtableManager.create remote this input w)
               = Normal (AirtableManager.failure
                           (message_or e "Failed to create record"))
         end)
  /\ (forall input,
      let batch := [{| update_id := update_id input;
                       update_fields := update_fields input |}] in
      snd (AirtableManager.update remote this input w)
        = w ++ [UpdateCall (AirtableManager.table this) batch]
      /\ match on_update remote w (AirtableManager.table this) batch with
         | Normal (r :: _) =>
             fst (AirtableManager.update remote this input w)
               = Normal (Delivery.single (AirtableManager.format r))
         | Normal [] =>
             exists text,
               fst (AirtableManager.update remote this input w)
                 = Normal (AirtableManager.failure text)
         | Throw _ =>
             exists text,
               fst (AirtableManager.update remote this input w)
                 = Normal (AirtableManager.failure text)
         end).
Proof.
  split; intros input.
  - unfold AirtableManager.create, try_catch, await, Airtable.create, lift, ret.
    destruct (on_create remote w (AirtableManager.table this) [input])
      as [[|r rest]|e]; cbn; split; try reflexivity.
    eexists. reflexivity.
  - intros batch. subst batch.
    unfold AirtableManager.update, try_catch, await, Airtable.update, lift, ret.
    destruct (on_update remote w (AirtableManager.table this) _)
      as [[|r rest]|e]; cbn; split; try reflexivity; eexists; reflexivity.
Qed.

(** X5.  [exists] and [getById] issue the same call, and agree on it:
    [exists] reports [exists: true] exactly when [getById] succeeds,
    [getById] reports "Record not found" whenever [exists] reports
    [exists: false], and [getById] fails whenever [exists] does. *)
Theorem exists_agrees_with_getById (remote : Remote)
    (this : AirtableManager.Manager) (id : string) (w : World) :
  exists checked fetched,
    AirtableManager.exists_ remote this id w
      = (Normal checked, w ++ [FindCall (AirtableManager.table this) id])
    /\ AirtableManager.getById remote this id w
      = (Normal fetched, w ++ [FindCall (AirtableManager.table this) id])
    /\ (exists_ checked = Some true <-> success fetched = true)
    /\ (exists_ checked = Some false -> error fetched = Some "Record not found")
    /\ (success checked = false -> success fetched = false).
Proof.
  unfold AirtableManager.exists_, AirtableManager.getById, try_catch, await,
    find, lift, ret.
  destruct (on_find remote w (AirtableManager.table this) id) as [r|e]; cbn.
  - do 2 eexists. repeat split; try reflexivity; discriminate.
  - destruct (is_404 e); do 2 eexists; repeat split; try reflexivity;
      discriminate.
Qed.

(** ** Bulk methods, at their edges *)


(** X6.  On an empty list the bulk methods issue no call and succeed:
    [bulkCreate] and [bulkUpdate] with no record and [count] 0,
    [bulkDelete] with [deletedCount] 0 and the message
    "0 records deleted successfully". *)
Theorem bulk_methods_on_empty_input (remote : Remote)
    (this : AirtableManager.Manager) (w : World) :
  (forall input,
      records input = [] ->
      AirtableManager.bulkCreate remote this input w
        = (Normal (Delivery.listing []), w))
  /\ (forall input,
      update_records input = [] ->
      AirtableManager.bulkUpdate remote this input w
        = (Normal (Delivery.listing []), w))
  /\ (forall input,
      ids input = [] ->
      AirtableManager.bulkDelete remote this input w
        = (Normal (Delivery.deleted 0), w)
      /\ message (Delivery.deleted 0) = Some "0 records deleted successfully").
Proof.
  split; [|split]; intros input Hempty.
  - rewrite bulkCreate_submits, Hempty, chunks_nil. reflexivity.
  - rewrite bulkUpdate_submits, Hempty, chunks_nil. reflexivity.
  - rewrite bulkDelete_submits, Hempty, chunks_nil. split; reflexivity.
Qed.

(** On the store that is down, nothing is asked for an empty list. *)
Lemma bulk_methods_on_empty_input_witness :
  AirtableManager.bulkDelete Fixtures.down Fixtures.manager {| ids := [] |} []
  = (Normal (Delivery.deleted 0), []).
Proof.
  exact (proj1 (proj2 (proj2
           (bulk_methods_on_empty_input Fixtures.down Fixtures.manager []))
           {| ids := [] |} eq_refl)).
Defined.

(** X7.  A bulk method that fails has had the calls for the chunks
    before the failing one answered by the remote store, has issued the
    failing call last and none after it, and returns a failure envelope
    with the message of that call's error, or the fallback text of the
    method: also for status 404, and with nothing of what the earlier
    chunks returned. *)
Theorem bulk_failure_reports_first_failing_chunk (remote : Remote)
    (this : AirtableManager.Manager) (w : World) :
  (forall input r,
      fst (AirtableManager.bulkCreate remote this input w) = Normal r ->
      success r = false ->
      exists k e,
        Delivery.stopped_at
          (fun w => on_create remote w (AirtableManager.table this))
          (CreateCall (AirtableManager.table this))
          (Reference.chunks (records input)) w k e
        /\ r = AirtableManager.failure (message_or e "Bulk create failed")
        /\ snd (AirtableManager.bulkCreate remote this input w)
           = w ++ map (CreateCall (AirtableManager.table this))
                      (firstn (S k) (Reference.chunks (records input))))
  /\ (forall input r,
      fst (AirtableManager.bulkUpdate remote this input w) = Normal r ->
      success r = false ->
      exists k e,
        Delivery.stopped_at
          (fun w => on_update remote w (AirtableManager.table this))
          (UpdateCall (AirtableManager.table this))
          (Reference.chunks (update_records input)) w k e
        /\ r = AirtableManager.failure (message_or e "Bulk update failed")
        /\ snd (AirtableManager.bulkUpdate remote this input w)
           = w ++ map (UpdateCall (AirtableManager.table this))
                      (firstn (S k) (Reference.chunks (update_records input))))
  /\ (forall input r,
      fst (AirtableManager.bulkDelete remote this input w) = Normal r ->
      success r = false ->
      exists k e,
        Delivery.stopped_at
          (fun w => on_destroy remote w (AirtableManager.table this))
          (DestroyCall (AirtableManager.table this))
          (Reference.chunks (ids input)) w k e
        /\ r = AirtableManager.failure (message_or e "Bulk delete failed")
        /\ snd (AirtableManager.bulkDelete remote this input w)
           = w ++ map (DestroyCall (AirtableManager.table this))
                      (firstn (S k) (Reference.chunks (ids input)))).
Proof.
  split; [|split]; intros input r.
  - rewrite bulkCreate_submits. cbv zeta. cbn [fst snd].
    destruct (fst (Reference.submit _ _ _ _ _ _)) as [results|e] eqn:Hsubmit;
      intros [= <-]; [discriminate|intros _].
    destruct (submit_throw _ _ _ _ _ _ Hsubmit) as (k & Hstopped & Hcalls).
    exists k, e. split; [exact Hstopped|]. split; [reflexivity|exact Hcalls].
  - rewrite bulkUpdate_submits. cbv zeta. cbn [fst snd].
    destruct (fst (Reference.submit _ _ _ _ _ _)) as [results|e] eqn:Hsubmit;
      intros [= <-]; [discriminate|intros _].
    destruct (submit_throw _ _ _ _ _ _ Hsubmit) as (k & Hstopped & Hcalls).
    exists k, e. split; [exact Hstopped|]. split; [reflexivity|exact Hcalls].
  - rewrite bulkDelete_submits. cbv zeta. cbn [fst snd].
    destruct (fst (Reference.submit _ _ _ _ _ _)) as [results|e] eqn:Hsubmit;
      intros [= <-]; [discriminate|intros _].
    destruct (submit_throw _ _ _ _ _ _ Hsubmit) as (k & Hstopped & Hcalls).
    exists k, e. split; [exact Hstopped|]. split; [reflexivity|exact Hcalls].
Qed.

(** The sample store refuses the identifier "gone", the eleventh of the
    list: the first chunk of ten is deleted, the second call fails, and
    the message is the one of the store. *)
Lemma bulk_failure_reports_first_failing_chunk_witness :
  exists k e,
    Delivery.stopped_at
      (fun w => on_destroy Fixtures.store w (AirtableManager.table Fixtures.manager))
      (DestroyCall (AirtableManager.table Fixtures.manager))
      (Reference.chunks (ids Delivery.eleven)) [] k e
    /\ AirtableManager.failure "NOT_FOUND"
       = AirtableManager.failure (message_or e "Bulk delete failed")
    /\ snd (AirtableManager.bulkDelete Fixtures.store Fixtures.manager
              Delivery.eleven [])
       = [] ++ map (DestroyCall (AirtableManager.table Fixtures.manager))
                   (firstn (S k) (Reference.chunks (ids Delivery.eleven))).
Proof.
  exact (proj2 (proj2
           (bulk_failure_reports_first_failing_chunk Fixtures.store
              Fixtures.manager []))
           Delivery.eleven (AirtableManager.failure "NOT_FOUND") eq_refl eq_refl).
Defined.

(** X8.  A [bulkUpdate] that succeeds returns the records the remote
    store answered to its chunks, formatted and concatenated in the
    order of the calls, with their number as [count]; that number is
    the length of the input when the store answers each call with one
    record for each one submitted. *)
Theorem bulkUpdate_returns_answers (remote : Remote)
    (this : AirtableManager.Manager) (input : BulkUpdateInput) (w : World)
    (r : Response) :
  fst (AirtableManager.bulkUpdate remote this input w) = Normal r ->
  success r = true ->
  exists results,
    Reference.answered
      (fun w => on_update remote w (AirtableManager.table this))
      (UpdateCall (AirtableManager.table this)) w
      (Reference.chunks (update_records input)) results
    /\ r = Delivery.listing (map AirtableManager.format (concat results))
    /\ ((forall w' batch rs,
           on_update remote w' (AirtableManager.table this) batch = Normal rs ->
           length rs = length batch) ->
        count r = Some (length (update_records input))).
Proof.
  rewrite bulkUpdate_submits. cbv zeta. cbn [fst].
  destruct (fst (Reference.submit _ _ _ _ _ _)) as [results|e] eqn:Hsubmit;
    intros [= <-]; [intros _|discriminate].
  destruct (submit_normal _ _ _ _ _ _ Hsubmit) as (rs & Hrs & ->).
  exists rs. rewrite (kept_formatted Hrs). cbn [app].
  split; [exact Hrs|]. split; [reflexivity|].
  intros Hone. cbn [count]. rewrite length_map.
  rewrite (answered_sizes (fun w c r => Hone w c r) Hrs).
  now rewrite chunks_concat.
Qed.

(** Twelve updates of the record the sample store holds. *)
Lemma bulkUpdate_returns_answers_witness :
  exists results,
    Reference.answered
      (fun w => on_update Fixtures.store w (AirtableManager.table Fixtures.manager))
      (UpdateCall (AirtableManager.table Fixtures.manager)) []
      (Reference.chunks (repeat {| update_id := "rec1"; update_fields := [] |} 12))
      results
    /\ Delivery.listing
         (repeat (AirtableManager.format (Fixtures.stored "rec1" [])) 12)
       = Delivery.listing (map AirtableManager.format (concat results))
    /\ ((forall w' batch rs,
           on_update Fixtures.store w' (AirtableManager.table Fixtures.manager) batch
             = Normal rs ->
           length rs = length batch) ->
        count (Delivery.listing
                 (repeat (AirtableManager.format (Fixtures.stored "rec1" [])) 12))
        = Some 12).
Proof.
  exact (bulkUpdate_returns_answers Fixtures.store Fixtures.manager
           {| update_records :=
                repeat {| update_id := "rec1"; update_fields := [] |} 12 |}
           [] (r := Delivery.listing
                      (repeat (AirtableManager.format (Fixtures.stored "rec1" [])) 12))
           eq_refl eq_refl).
Defined.

(** ** The filter formula, by its entries *)

Section Entries.

Import AirtableManager.

Lemma predicates_qualifying (filters : list (string * Value)) :
  Reference.predicates (Delivery.qualifying filters) = Reference.predicates filters.
Proof.
  induction filters as [|[field value] rest IH]; [reflexivity|].
  cbn [Delivery.qualifying filter snd Reference.predicates].
  destruct (Reference.skipped value) eqn:Hskip; cbn [negb].
  - exact IH.
  - cbn [Reference.predicates]. rewrite Hskip.
    fold (Delivery.qualifying rest). now rewrite IH.
Qed.

(** No predicate is the empty string. *)
Lemma predicate_not_empty (field : string) (value : Value) (p : string) :
  Reference.predicate field value = Normal p -> p <> EmptyString.
Proof.
  destruct value as [| |[|]|n|s|[text|e]]; cbn; intros [= <-]; discriminate.
Qed.

(** The entries that qualify have one predicate each. *)
Lemma predicates_length (filters : list (string * Value)) :
  forall ps,
    Reference.predicates filters = Normal ps ->
    length ps = length (Delivery.qualifying filters)
    /\ Forall (fun p => p <> EmptyString) ps.
Proof.
  induction filters as [|[field value] rest IH]; intros ps;
    cbn [Reference.predicates Delivery.qualifying filter snd].
  - intros [= <-]. split; [reflexivity|constructor].
  - destruct (Reference.skipped value); cbn [negb]; [apply IH|].
    destruct (Reference.predicate field value) as [p|e] eqn:Hp; [|discriminate].
    cbn [Js.bind].
    destruct (Reference.predicates rest) as [ps'|e]; [|discriminate].
    cbn [Js.bind]. intros [= <-].
    destruct (IH ps' eq_refl) as [Hlen Hall].
    split; [cbn [length]; now f_equal|].
    constructor; [exact (predicate_not_empty _ _ Hp)|exact Hall].
Qed.

(** The formula, from the predicates of the entries. *)
Lemma buildFilterFormula_predicates (filters : list (string * Value)) :
  buildFilterFormula filters =
  Js.bind (Reference.predicates filters) (fun ps =>
  match ps with
  | [] => Normal EmptyString
  | [p] => Normal p
  | _ => Normal ("AND(" ++ String.concat ", " ps ++ ")")%string
  end).
Proof.
  unfold buildFilterFormula. rewrite forEach_push_condition.
  destruct (Reference.predicates filters) as [[|p [|q ps]]|e]; reflexivity.
Qed.

End Entries.

(** X9.  [buildFilterFormula] does not see the entries whose value is
    null, undefined or the empty string: it gives the same result with
    them removed.  When it gives a formula, that formula is the empty
    string exactly when no entry is left. *)
Theorem buildFilterFormula_ignores_absent_entries (filters : list (string * Value)) :
  AirtableManager.buildFilterFormula (Delivery.qualifying filters)
    = AirtableManager.buildFilterFormula filters
  /\ (forall formula,
      AirtableManager.buildFilterFormula filters = Normal formula ->
      (formula = EmptyString <-> Delivery.qualifying filters = [])).
Proof.
  split.
  - rewrite !buildFilterFormula_predicates. now rewrite predicates_qualifying.
  - intros formula. rewrite buildFilterFormula_predicates.
    destruct (Reference.predicates filters) as [ps|e] eqn:Hps; [|discriminate].
    destruct (predicates_length _ Hps) as [Hlen Hall].
    cbn [Js.bind]. destruct ps as [|p [|q ps]]; intros [= <-].
    + split; [intros _|reflexivity].
      now destruct (Delivery.qualifying filters).
    + inversion Hall as [|? ? Hp _]; subst.
      split; [intros H; contradiction|].
      intros Hnone. rewrite Hnone in Hlen. discriminate Hlen.
    + split; [discriminate|].
      intros Hnone. rewrite Hnone in Hlen. discriminate Hlen.
Qed.

(** A mapping with one name to search for and two absent values. *)
Lemma buildFilterFormula_ignores_absent_entries_witness :
  AirtableManager.buildFilterFormula
    [("name", VString "Bob"); ("city", VNull); ("zip", VString EmptyString)]
  = AirtableManager.buildFilterFormula [("name", VString "Bob")].
Proof.
  exact (eq_sym (proj1 (buildFilterFormula_ignores_absent_entries
                          [("name", VString "Bob"); ("city", VNull);
                           ("zip", VString EmptyString)]))).
Defined.

(** ** Where the calls go *)

Section Addressed.

Variable remote : Remote.

Import AirtableManager.

Lemma issued_to {A} (issue : list A -> Call) (t : Table) (cs : list (list A)) :
  (forall c, Delivery.table_of_call (issue c) = t) ->
  Forall (fun c => Delivery.table_of_call c = t) (map issue cs).
Proof.
  intros H. apply Forall_forall. intros c Hc.
  apply in_map_iff in Hc as (x & <- & _). apply H.
Qed.

Lemma requests_to (t : Table) (o : SelectOptions) (ks : list nat) :
  Forall (fun c => Delivery.table_of_call c = t) (map (SelectPage t o) ks).
Proof.
  apply Forall_forall. intros c Hc.
  apply in_map_iff in Hc as (x & <- & _). reflexivity.
Qed.

Lemma addressed_none (this : Manager) (w : World) : Delivery.addressed this w w.
Proof. exists []. split; [now rewrite app_nil_r|constructor]. Qed.

Lemma addressed_one (this : Manager) (w : World) (c : Call) :
  Delivery.table_of_call c = table this -> Delivery.addressed this w (w ++ [c]).
Proof. intros H. exists [c]. split; [reflexivity|]. now constructor. Qed.

Lemma getAll_addressed (this : Manager) options (w : World) :
  Delivery.addressed this w (snd (getAll remote this options w)).
Proof.
  rewrite getAll_reads_all_pages. cbn [snd]. eexists. split; [reflexivity|].
  apply requests_to.
Qed.

Lemma submitted_addressed {A R St} (this : Manager)
    (answer : World -> list A -> Completion R) (issue : list A -> Call)
    (step : St -> list A -> R -> St) (cs : list (list A)) (s : St) (w : World) :
  (forall c, Delivery.table_of_call (issue c) = table this) ->
  Delivery.addressed this w (snd (Reference.submit answer issue step cs s w)).
Proof.
  intros H. destruct (submit_calls answer issue step cs s w) as (k & _ & Hcalls & _).
  rewrite Hcalls. eexists. split; [reflexivity|]. now apply issued_to.
Qed.

(** Every call of the interface adds calls to the world, all of them to
    the table of the instance. *)
Lemma call_addressed (op : Operation) (this : Manager) (w : World) :
  Delivery.addressed this w (snd (call remote op this w)).
Proof.
  destruct op as [input|options|i|options|input|i|input|input|input
                  |pageSize offset|filterByFormula|i| |name];
    cbn [call]; unfold fulfilled.
  - unfold create, try_catch, await, Airtable.create, lift, ret.
    destruct (on_create remote w (table this) [input]) as [[|r rest]|e]; cbn;
      now apply addressed_one.
  - pose proof (getAll_addressed this
                  match options with Some o => o | None => no_options end w) as H.
    destruct (getAll remote this _ w) as [[[r|e]|unhandled] w']; exact H.
  - unfold getById, try_catch, await, find, lift, ret.
    destruct (on_find remote w (table this) i) as [r|e]; cbn;
      now apply addressed_one.
  - unfold search, try_catch, await, lift.
    destruct (buildFilterFormula (filters options)) as [formula|e]; cbn;
      [|apply addressed_none].
    match goal with |- context [getAll remote this ?o w] =>
      pose proof (getAll_addressed this o w) as H;
      destruct (getAll_returns remote this o w) as [r Hr];
      destruct (getAll remote this o w) as [c w'] end.
    cbn in Hr. subst c. exact H.
  - unfold update, try_catch, await, Airtable.update, lift, ret.
    destruct (on_update remote w (table this) _) as [[|r rest]|e]; cbn;
      now apply addressed_one.
  - unfold delete, try_catch, await, destroy, ret.
    destruct (on_destroy remote w (table this) [i]) as [r|e]; cbn;
      now apply addressed_one.
  - rewrite bulkCreate_submits. cbv zeta. now apply submitted_addressed.
  - rewrite bulkUpdate_submits. cbv zeta. now apply submitted_addressed.
  - rewrite bulkDelete_submits. cbv zeta. now apply submitted_addressed.
  - rewrite getPaginated_ends. cbv zeta.
    destruct (select_offset _).
    + apply addressed_none.
    + destruct (on_select remote w (table this) _); cbn [snd];
        now apply addressed_one.
  - rewrite count_reads_all_pages. cbn [snd]. eexists. split; [reflexivity|].
    apply requests_to.
  - unfold exists_, try_catch, await, find, ret.
    destruct (on_find remote w (table this) i) as [r|e]; cbn;
      [|destruct (is_404 e); cbn]; now apply addressed_one.
  - apply addressed_none.
  - exists []. split; [now rewrite app_nil_r|constructor].
Qed.

End Addressed.

(** X10.  After [switchTable(name)], whatever is called next only adds
    calls to the world, and every call it adds is addressed to the
    table [name] of the base of the instance. *)
Theorem calls_go_to_the_switched_table (remote : Remote)
    (this : AirtableManager.Manager) (name : string)
    (op : AirtableManager.Operation) (w : World) :
  exists calls,
    snd (AirtableManager.call remote op (AirtableManager.switchTable this name) w)
      = w ++ calls
    /\ Forall (fun c => Delivery.table_of_call c
                        = table_of (AirtableManager.base this) name) calls.
Proof.
  exact (call_addressed remote op (AirtableManager.switchTable this name) w).
Qed.

Section Sequences.

Variable remote : Remote.

Import AirtableManager.

(** A sequence of calls on an instance bound to a base adds calls to
    tables of that base only. *)
Lemma run_in_base (apiKey baseId : string) (ops : list Operation) :
  forall this w,
    Reference.bound_to apiKey baseId this ->
    exists calls,
      snd (run remote ops this w) = w ++ calls
      /\ Forall (fun c => table_base (Delivery.table_of_call c)
                          = Airtable.base baseId) calls.
Proof.
  induction ops as [|op ops IH]; intros this w Hbound; cbn [run].
  - exists []. split; [now rewrite app_nil_r|constructor].
  - pose proof (call_bound remote op w Hbound) as Hnext.
    destruct (call_addressed remote op this w) as (calls1 & Hw & Hcalls1).
    destruct (call remote op this w) as [[c this'] w']. cbn [fst snd] in *.
    destruct (IH this' w' Hnext) as (calls2 & Hw2 & Hcalls2).
    exists (calls1 ++ calls2). split.
    + rewrite Hw2, Hw, app_assoc. reflexivity.
    + apply Forall_app. split; [|exact Hcalls2].
      destruct Hbound as (_ & _ & Hbase & Htable).
      eapply Forall_impl; [|exact Hcalls1].
      intros call ->. rewrite Htable. exact Hbase.
Qed.

End Sequences.

(** X11.  Whatever sequence of calls is made on an instance, [switchTable]
    among them, the world only grows, and every call issued is
    addressed to a table of the base the instance was constructed
    for. *)
Theorem run_stays_in_its_base (remote : Remote) (apiKey baseId tableName : string)
    (ops : list AirtableManager.Operation) (w : World) :
  exists calls,
    snd (AirtableManager.run remote ops
           (AirtableManager.constructor apiKey baseId tableName) w)
      = w ++ calls
    /\ Forall (fun c => table_base (Delivery.table_of_call c)
                        = Airtable.base baseId) calls.
Proof.
  apply (run_in_base remote (apiKey := apiKey)).
  apply constructor_bound.
Qed.

(** ** The mail sender *)

Section Mail.

Variable relay : Email.Relay.

Lemma send_all_posts (this : Email.Instance)
    (mails : list (string * string * string)) :
  forall o,
    Email.sent (Email.send_all relay this mails o)
    = Email.sent o
      ++ map (fun mail =>
                (Email.transporter this,
                 {| Email.from := Email.sender this;
                    Email.to := fst (fst mail);
                    Email.subject := snd (fst mail);
                    Email.html := snd mail |})) mails
    /\ length (Email.console (Email.send_all relay this mails o))
       = length (Email.console o) + length mails.
Proof.
  induction mails as [|[[to subject] html] rest IH]; intros o; cbn [Email.send_all].
  - cbn. now rewrite app_nil_r, Nat.add_0_r.
  - destruct (IH (snd (Email.sendMarkdownEmail relay this to subject html o)))
      as [Hsent Hconsole].
    rewrite Hsent, Hconsole. unfold Email.sendMarkdownEmail.
    destruct (relay _ _ _) as [info|e]; cbn [snd Email.sent Email.console];
      rewrite <- app_assoc, length_app; cbn [length map fst snd app];
      split; [reflexivity|lia|reflexivity|lia].
Qed.

End Mail.

(** X12.  [sendMarkdownEmail] hands one message to the relay and
    completes as the relay does: with its receipt, or by raising the
    very error of the relay, never with a result in its place.  Over
    any sequence of mails sent by one instance, the messages reach the
    relay in the order they were sent, each through the transport
    authenticated as the address given to the constructor and with that
    address as sender, and each writes one line to the console. *)
Theorem sendMarkdownEmail_relays (relay : Email.Relay)
    (service address password : string) :
  let this := Email.constructor service address password in
  (forall to subject html o,
      fst (Email.sendMarkdownEmail relay this to subject html o)
      = relay (Email.sent o) (Email.transporter this)
          {| Email.from := address; Email.to := to;
             Email.subject := subject; Email.html := html |})
  /\ (forall mails o,
       Email.sent (Email.send_all relay this mails o)
       = Email.sent o
         ++ map (fun mail =>
                   ({| Email.transport_service := service;
                       Email.auth_user := address;
                       Email.auth_pass := password |},
                    {| Email.from := address;
                       Email.to := fst (fst mail);
                       Email.subject := snd (fst mail);
                       Email.html := snd mail |})) mails
       /\ length (Email.console (Email.send_all relay this mails o))
          = length (Email.console o) + length mails).
Proof.
  intros this. split.
  - intros to subject html o. unfold Email.sendMarkdownEmail.
    change (Email.sender this) with address.
    destruct (relay _ _ _); reflexivity.
  - intros mails o. exact (send_all_posts relay this mails o).
Qed.
